(** * Dataset Studio: the form submitter, the navigation shell and the
      dataset browser with its tabular preview, embedded from the JSX sources.

    - [src/config/datasetConfigs.js]  : the recipe registry [datasetConfigs]
    - [src/pages/Dashboard.jsx]       : [handleChange], [handleSubmit],
                                        the controls of the form
    - [src/App.jsx]                   : the two pieces of shell state
    - [src/components/Sidebar.jsx]    : the buttons and their highlight
    - [src/pages/Datasets.jsx]        : [fetchDatasets], [fetchCSV],
                                        [parseCSV], [deleteDataset]

    JavaScript strings are sequences of UTF-16 code units; they are embedded
    as [list N].  Plain objects used as dictionaries are finite maps of
    their own properties ([gmap]); the two places where JavaScript looks
    beyond the own properties (reading a missing key finds the members of
    [Object.prototype], assigning to the key [__proto__] runs a setter
    instead of creating a property) are written out in [js_get] and
    [js_set]. *)

From Stdlib Require Import String Ascii.
From stdpp Require Import base numbers list gmap.

#[local] Set Warnings "-register-all".
Local Open Scope N_scope.

(** ** JavaScript strings *)

Module JS.

(** A string is its sequence of UTF-16 code units. *)
Abbreviation str := (list N).

(** ASCII literals. *)
Definition lit (s : string) : str :=
  (λ a, N_of_ascii a) <$> list_ascii_of_string s.

(** ECMAScript [WhiteSpace] and [LineTerminator] code points, the ones
    [String.prototype.trim] strips. *)
Definition isWhiteSpace (c : N) : bool :=
  (c =? 9) || (c =? 10) || (c =? 11) || (c =? 12) || (c =? 13) ||
  (c =? 32) || (c =? 160) || (c =? 5760) ||
  ((8192 <=? c) && (c <=? 8202)) ||
  (c =? 8232) || (c =? 8233) || (c =? 8239) || (c =? 8287) ||
  (c =? 12288) || (c =? 65279).

Fixpoint trimStart (s : str) : str :=
  match s with
  | c :: r => if isWhiteSpace c then trimStart r else s
  | [] => []
  end.

Definition trimEnd (s : str) : str := rev (trimStart (rev s)).

(** [s.trim()] *)
Definition trim (s : str) : str := trimEnd (trimStart s).

(** [s.split(sep)] for a separator of one code unit.  The result always
    has at least one piece: [split sep [] = [[]]]. *)
Fixpoint split (sep : N) (s : str) : list str :=
  match s with
  | [] => [[]]
  | c :: r =>
      if c =? sep then [] :: split sep r
      else match split sep r with
           | piece :: more => (c :: piece) :: more
           | [] => [[c]]
           end
  end.

Definition LF : N := 10.
Definition comma : N := 44.

(** The members of [Object.prototype]: a read of one of these keys on a
    plain object that has no own property of that name finds the
    inherited member instead of [undefined]. *)
Definition Object_prototype_keys : list str :=
  lit <$> [ "__proto__"; "constructor"; "hasOwnProperty"; "isPrototypeOf";
            "propertyIsEnumerable"; "toLocaleString"; "toString"; "valueOf";
            "__defineGetter__"; "__defineSetter__"; "__lookupGetter__";
            "__lookupSetter__" ]%string.

(** [obj[k] = v] on a plain object whose values are strings.  Every key
    creates or overwrites an own property, except [__proto__]: that name
    is an accessor of [Object.prototype] whose setter ignores a value that
    is neither an object nor [null], so the assignment leaves [obj] as it
    was. *)
Definition js_set {V} (obj : gmap str V) (k : str) (v : V) : gmap str V :=
  if decide (k = lit "__proto__") then obj else <[k := v]> obj.

End JS.

Import JS.

(** ** The dataset browser ([pages/Datasets.jsx]) *)

Module Datasets.

Record ColDef := { headerName : str; field : str }.

(** The component state, one field per [useState]. *)
Record state := {
  datasetType : str;
  datasets : list str;
  rowData : list (gmap str str);
  columnDefs : list ColDef;
  showModal : bool;
  selectedFile : str
}.

(** The state of the first render. *)
Definition initial : state :=
  {| datasetType := lit "sft"; datasets := []; rowData := [];
     columnDefs := []; showModal := false; selectedFile := [] |}.

(** [row[i] || <empty string>]: an index past the end reads [undefined],
    which like the empty string is falsy. *)
Definition or_empty (cell : option str) : str :=
  match cell with
  | Some (c :: s) => c :: s
  | Some [] | None => []
  end.

(** The loop [headers.forEach((header, i) => { obj[header] = ...; })] of
    [parseCSV], from index [i] on; the value assigned is [or_empty]. *)
Fixpoint forEach_header (headers : list str) (i : nat) (row : list str)
    (obj : gmap str str) : gmap str str :=
  match headers with
  | [] => obj
  | header :: rest =>
      forEach_header rest (S i) row (js_set obj header (or_empty (row !! i)))
  end.

Definition formatRow (headers row : list str) : gmap str str :=
  forEach_header headers 0%nat row ∅.

(** [parseCSV]: the two setters at its end are its only effect. *)
Definition parseCSV (csvText : str) (st : state) : state :=
  let rows := split comma <$> split LF (trim csvText) in
  match rows with
  | [] => st                                   (* if (!rows.length) return; *)
  | headers :: dataRows =>                     (* rows[0], rows.slice(1) *)
      let cols := (λ header, {| headerName := header; field := header |})
                    <$> headers in
      let formattedRows := formatRow headers <$> dataRows in
      {| datasetType := datasetType st; datasets := datasets st;
         rowData := formattedRows; columnDefs := cols;
         showModal := showModal st; selectedFile := selectedFile st |}
  end.

(** *** Requests to the backend *)

Inductive request :=
| GET (url : str)
| DELETE (url : str).

Definition BASE_URL : str := lit "http://localhost:8000".

(** [`${BASE_URL}/datasets?dataset_type=${datasetType}`] *)
Definition list_url (datasetType : str) : str :=
  BASE_URL ++ lit "/datasets?dataset_type=" ++ datasetType.

(** [`${BASE_URL}/datasets/${datasetType}/${filename}`] *)
Definition file_url (datasetType filename : str) : str :=
  BASE_URL ++ lit "/datasets/" ++ datasetType ++ lit "/" ++ filename.

(** [fetchDatasets] up to its [await]: the request it issues.  The
    [datasetType] in the URL is the one of the render whose closure is
    called, here the state [st] of that render. *)
Definition fetchDatasets (st : state) : list request :=
  [GET (list_url (datasetType st))].

(** [fetchDatasets] after its [await]: [setDatasets(res.data.datasets)]. *)
Definition fetchDatasets_resolved (res_data_datasets : list str)
    (st : state) : state :=
  {| datasetType := datasetType st; datasets := res_data_datasets;
     rowData := rowData st; columnDefs := columnDefs st;
     showModal := showModal st; selectedFile := selectedFile st |}.

(** The selector's [onChange], [setDatasetType(e.target.value)], followed
    by the effect [useEffect(() => { fetchDatasets(); }, [datasetType])]
    of the next render, which runs when the dependency differs from the
    one of the previous render. *)
Definition setDatasetType (key : str) (st : state) : state * list request :=
  let st' := {| datasetType := key; datasets := datasets st;
                rowData := rowData st; columnDefs := columnDefs st;
                showModal := showModal st; selectedFile := selectedFile st |} in
  (st', if decide (key = datasetType st) then [] else fetchDatasets st').

(** The same effect runs once after the first render. *)
Definition mount : state * list request := (initial, fetchDatasets initial).

(** How an awaited request settles. *)
Inductive settled := Resolved | Rejected.

(** [deleteDataset]: the DELETE, and after its [await] the call of
    [fetchDatasets] of the same render.  A rejected DELETE throws out of
    the function before that call. *)
Definition deleteDataset (filename : str) (st : state) (outcome : settled)
    : list request :=
  DELETE (file_url (datasetType st) filename) ::
  match outcome with
  | Resolved => fetchDatasets st
  | Rejected => []
  end.

(** The part of [deleteDataset] that runs after its [await]: the call of
    [fetchDatasets], the one of the render the handler was created in, so
    [st] is the state of that render whatever was selected since. *)
Definition deleteDataset_resumed (st : state) (outcome : settled)
    : list request :=
  match outcome with
  | Resolved => fetchDatasets st
  | Rejected => []
  end.

(** [res.data] as axios hands it over.  The request sets no
    [responseType], so axios tries [JSON.parse] on the body: a body that
    is not JSON text arrives as it is, and a body that is JSON text
    arrives parsed, which is a string only for a JSON string literal. *)
Inductive response_data :=
| DataText (csvText : str)           (* res.data is a string *)
| DataValue.                         (* a number, boolean, null, array or object *)

(** [fetchCSV] after its [await].  On a value that is not a string,
    [csvText.trim] is not a function (or a read on [null]): [parseCSV]
    throws before any setter, and the two setters after the call are not
    reached. *)
Definition fetchCSV_resolved (res_data : response_data) (filename : str)
    (st : state) : state :=
  match res_data with
  | DataText csvText =>
      let st' := parseCSV csvText st in
      {| datasetType := datasetType st'; datasets := datasets st';
         rowData := rowData st'; columnDefs := columnDefs st';
         showModal := true; selectedFile := filename |}
  | DataValue => st
  end.

End Datasets.

(** ** The recipe registry ([config/datasetConfigs.js]) *)

Module Field.
Record t := {
  name : str;
  label : str;
  type : str;
  options : option (list str);
  step : option str
}.
End Field.

Module Recipe.
Record t := {
  label : str;
  endpoint : str;
  fields : list Field.t
}.
End Recipe.

Module Registry.

(** Field descriptors [{ name, label, type }], with a [step], and with
    [type: "select"] and [options]. *)
Definition input (name label type : string) : Field.t :=
  {| Field.name := lit name; Field.label := lit label;
     Field.type := lit type; Field.options := None; Field.step := None |}.

Definition stepped (name label type step : string) : Field.t :=
  {| Field.name := lit name; Field.label := lit label;
     Field.type := lit type; Field.options := None;
     Field.step := Some (lit step) |}.

Definition select (name label : string) (options : list string) : Field.t :=
  {| Field.name := lit name; Field.label := lit label;
     Field.type := lit "select"; Field.options := Some (lit <$> options);
     Field.step := None |}.

Definition languages : list string :=
  [ "Arabic"; "Azerbaijani"; "Basque"; "Catalan"; "Chinese"; "Czech";
    "Danish"; "Dutch"; "English"; "Esperanto"; "Finnish"; "French";
    "Galician"; "German"; "Greek"; "Hebrew"; "Hindi"; "Hungarian";
    "Indonesian"; "Irish"; "Italian"; "Japanese"; "Kyrgyz"; "Korean";
    "Malay"; "Persian"; "Polish"; "Portuguese"; "Portuguese (Brazil)";
    "Russian"; "Slovak"; "Spanish"; "Swedish"; "Turkish"; "Ukrainian";
    "Urdu" ]%string.

(** U+2192, the arrow in two of the display labels. *)
Definition arrow : str := [8594].

Definition sft : Recipe.t :=
  {| Recipe.label := lit "SFT (Instruction Tuning)";
     Recipe.endpoint := lit "/generate/sft";
     Recipe.fields :=
       [ input "topic" "Topic" "text";
         input "model" "Model" "text";
         select "style" "Style"
           [ "highly friendly"; "begineer friendly";
             "problem-solving oriented"; "conversational" ]%string;
         input "num_pairs" "Number of Pairs" "number";
         input "language" "Language" "text";
         stepped "temperature" "Temperature" "number" "0.1";
         input "output_name" "Output Name" "text" ] |}.

Definition nl_sql : Recipe.t :=
  {| Recipe.label := lit "NL " ++ arrow ++ lit " SQL";
     Recipe.endpoint := lit "/generate/nl_sql";
     Recipe.fields :=
       [ input "schema_file" "Schema File (.json)" "file";
         input "model" "Model" "text";
         input "num_samples" "Number of Samples" "number";
         input "output_name" "Output Name" "text" ] |}.

Definition rag_qa : Recipe.t :=
  {| Recipe.label := lit "RAG-QA";
     Recipe.endpoint := lit "/generate/rag_qa";
     Recipe.fields :=
       [ input "context_file" "Context File (.txt / .pdf)" "file";
         input "model" "Model" "text";
         select "difficulty" "Difficulty" [ "easy"; "medium"; "hard" ]%string;
         input "num_pairs" "Number of QA Pairs" "number";
         input "output_name" "Output Name" "text" ] |}.

Definition classification : Recipe.t :=
  {| Recipe.label := lit "Classification";
     Recipe.endpoint := lit "/generate/classification";
     Recipe.fields :=
       [ input "task_description" "Task Description" "textarea";
         input "model" "Model" "text";
         input "num_samples" "Number of Samples" "number";
         input "output_name" "Output Name" "text" ] |}.

Definition text_to_code : Recipe.t :=
  {| Recipe.label := lit "Text " ++ arrow ++ lit " Code";
     Recipe.endpoint := lit "/generate/text_to_code";
     Recipe.fields :=
       [ input "domain" "Domain" "text";
         input "programming_language" "Programming Language" "text";
         input "model" "Model" "text";
         input "num_samples" "Number of Samples" "number";
         stepped "temperature" "Temperature" "number" "0.1";
         input "output_name" "Output Name" "text" ] |}.

Definition multilingual : Recipe.t :=
  {| Recipe.label := lit "Multilingual";
     Recipe.endpoint := lit "/generate/multilingual";
     Recipe.fields :=
       [ input "topic" "Topic" "text";
         select "source_language" "Source Language" languages;
         select "destination_language" "Target Language" languages;
         input "model" "Generation Model" "text";
         input "num_samples" "Number of Samples" "number";
         stepped "temperature" "Temperature" "number" "0.1";
         input "output_name" "Output Name" "text" ] |}.

(** The exported object, its six keys in source order. *)
Definition datasetConfigs : list (str * Recipe.t) :=
  [ (lit "sft", sft); (lit "nl_sql", nl_sql); (lit "rag_qa", rag_qa);
    (lit "classification", classification);
    (lit "text_to_code", text_to_code); (lit "multilingual", multilingual) ].

End Registry.

(** ** The form submitter ([pages/Dashboard.jsx]) *)

Module Dashboard.

(** What [formData[field.name]] can evaluate to: a string typed into a
    control, the file picked in a file control, [undefined], or a member
    inherited from [Object.prototype]. *)
Inductive value {File : Type} :=
| VUndefined
| VString (s : str)
| VFile (f : File)
| VInherited (k : str).
Arguments value : clear implicits.

(** A parsed JSON response body. *)
Inductive json {jsnumber : Type} :=
| JNull
| JBool (b : bool)
| JNumber (n : jsnumber)
| JString (s : str)
| JArray (items : list json)
| JObject (props : list (str * json)).
Arguments json : clear implicits.

(** A statement completes normally or throws an error with a message. *)
Inductive completion (A : Type) :=
| Normal (a : A)
| Throw (message : str).
Arguments Normal {A} a.
Arguments Throw {A} message.

(** What the source takes from its environment: the file handles and the
    numbers of the JavaScript engine with the built-in operations the
    source applies to them, and the base URL of the build
    ([import.meta.env.VITE_API_BASE_URL] as the template literal renders
    it). *)
Class Env := {
  File : Type;
  jsnumber : Type;
  API_BASE : str;
  Number : value File → jsnumber;
  ToBoolean_number : jsnumber → bool;
  ToString_nonstring : json jsnumber → completion str;
  TypeError_null : str → str
}.

Section WithEnv.
Context `{Env}.

(** [formData[k]] *)
Definition js_get (formData : gmap str (value File)) (k : str) : value File :=
  match formData !! k with
  | Some v => v
  | None => if decide (k ∈ Object_prototype_keys) then VInherited k
            else VUndefined
  end.

(** Truthiness of such a value. *)
Definition truthy (v : value File) : bool :=
  match v with
  | VUndefined => false
  | VString [] => false
  | VString (_ :: _) => true
  | VFile _ => true
  | VInherited _ => true
  end.

(** [{ type, text }], the argument of [setMessage]. *)
Record status_message := {
  type : str;
  text : option (json jsnumber)
}.

(** The component state, one field per [useState]. *)
Record state := {
  formData : gmap str (value File);
  loading : bool;
  message : option status_message
}.

Definition initial : state :=
  {| formData := ∅; loading := false; message := None |}.

(** The part of a change event the handler reads. *)
Record change_event := {
  target_value : str;
  target_files : list File
}.

(** [handleChange]: the spread copies the own properties and the
    computed key defines an own property, whatever the name. *)
Definition handleChange (e : change_event) (field : Field.t)
    (st : state) : state :=
  let v := if decide (Field.type field = lit "file")
           then match target_files e with      (* e.target.files[0] *)
                | f :: _ => VFile f
                | [] => VUndefined
                end
           else VString (target_value e) in
  {| formData := <[Field.name field := v]> (formData st);
     loading := loading st; message := message st |}.

(** The second argument of a [form.append]. *)
Inductive appended :=
| AValue (v : value File)
| ANumber (n : jsnumber).

(** A [FormData] under construction: its entries in order. *)
Definition FormData : Type := list (str * appended).

(** The body of [config.fields.forEach]: the [throw] leaves the loop. *)
Fixpoint forEach_field (formData : gmap str (value File))
    (fields : list Field.t) (form : FormData) : completion FormData :=
  match fields with
  | [] => Normal form
  | field :: rest =>
      let v := js_get formData (Field.name field) in
      if negb (truthy v)
      then Throw (Field.label field ++ lit " is required")
      else forEach_field formData rest
             (form ++ [(Field.name field,
                        if decide (Field.name field = lit "num_pairs")
                        then ANumber (Number v)
                        else AValue v)])
  end.

(** How the awaited [fetch] and [response.json()] come out. *)
Inductive body :=
| NotJson (message : str)            (* response.json() rejects *)
| Json (result : json jsnumber).

Inductive fetch_result :=
| Pending                            (* never settles *)
| Rejected (message : str)           (* fetch rejects *)
| Response (ok : bool) (b : body).

(** [result.detail] and [result.message]: neither name is a member of a
    built-in prototype, so the read finds an own property of a parsed
    object (the last one of that name in the text) or [undefined];
    reading a property of [null] throws. *)
Definition get (result : json jsnumber) (k : str)
    : completion (option (json jsnumber)) :=
  match result with
  | JNull => Throw (TypeError_null k)
  | JObject props =>
      Normal (snd <$> last (filter (λ p, p.1 = k) props))
  | _ => Normal None
  end.

Definition ToBoolean (v : option (json jsnumber)) : bool :=
  match v with
  | None | Some JNull => false
  | Some (JBool b) => b
  | Some (JNumber n) => ToBoolean_number n
  | Some (JString []) => false
  | Some (JString (_ :: _)) => true
  | Some (JArray _) | Some (JObject _) => true
  end.

(** The message of [new Error(x)]: [x] converted to a string. *)
Definition ToString (x : json jsnumber) : completion str :=
  match x with
  | JString s => Normal s
  | _ => ToString_nonstring x
  end.

(** The statements between [response.json()] and the [catch]. *)
Definition after_json (ok : bool) (result : json jsnumber)
    : completion status_message :=
  if negb ok then
    match get result (lit "detail") with
    | Throw m => Throw m
    | Normal detail =>
        match ToString (if ToBoolean detail
                        then default JNull detail
                        else JString (lit "Backend error")) with
        | Throw m => Throw m
        | Normal m => Throw m              (* throw new Error(...) *)
        end
    end
  else
    match get result (lit "message") with
    | Throw m => Throw m
    | Normal message =>
        Normal {| type := lit "success"; text := message |}
    end.

(** The state setters and the network call, in the order the function
    performs them. *)
Inductive effect :=
| setLoading (b : bool)
| setMessage (m : option status_message)
| fetch (url : str) (method : str) (form : FormData).

(** The [catch] clause. *)
Definition catch (error_message : str) : effect :=
  setMessage (Some {| type := lit "error";
                      text := Some (JString error_message) |}).

(** [handleSubmit] for the recipe [config] of the render, the
    [formData] of the render and the outcome [net] of the network
    call if one is made. *)
Definition handleSubmit (config : Recipe.t)
    (formData : gmap str (value File)) (net : fetch_result) : list effect :=
  [setLoading true; setMessage None] ++
  match forEach_field formData (Recipe.fields config) [] with
  | Throw m => [catch m; setLoading false]
  | Normal form =>
      fetch (API_BASE ++ Recipe.endpoint config) (lit "POST") form ::
      match net with
      | Pending => []
      | Rejected m => [catch m; setLoading false]
      | Response ok (NotJson m) => [catch m; setLoading false]
      | Response ok (Json result) =>
          match after_json ok result with
          | Normal msg => [setMessage (Some msg); setLoading false]
          | Throw m => [catch m; setLoading false]
          end
      end
  end.

(** The effect of a setter on the state; the network call leaves it. *)
Definition apply (st : state) (e : effect) : state :=
  match e with
  | setLoading b =>
      {| formData := formData st; loading := b; message := message st |}
  | setMessage m =>
      {| formData := formData st; loading := loading st; message := m |}
  | fetch _ _ _ => st
  end.

Definition run (st : state) (trace : list effect) : state :=
  foldl apply st trace.

(** [disabled={loading}] on the submit button. *)
Definition submit_disabled (st : state) : bool := loading st.

Definition is_fetch (e : effect) : bool :=
  match e with fetch _ _ _ => true | _ => false end.

End WithEnv.

(** The control rendered for a field. *)
Inductive control :=
| textarea
| select (options : list str)
| input (type : str) (step : option str).

(** The JSX of one field in the render of [Dashboard]; [None] is the
    [TypeError] of [field.options.map] on a field of type select that has
    no [options]. *)
Definition render_control (field : Field.t) : option control :=
  if decide (Field.type field = lit "textarea") then Some textarea
  else if decide (Field.type field = lit "select") then
    select <$> Field.options field
  else Some (input (Field.type field) (Field.step field)).

End Dashboard.

(** ** The navigation shell ([App.jsx], [components/Sidebar.jsx]) *)

Module App.

Section WithEnv.
Context `{Dashboard.Env}.

(** The two [useState] of [App], and the state of the page component
    that is mounted: React keeps the state of a component for as long
    as an element of the same type is rendered at the same place, and
    drops it when the component is unmounted. *)
Record state := {
  selectedDataset : str;
  activePage : str;
  dashboard : option Dashboard.state;
  datasets : option Datasets.state
}.

(** The render of [App]: [<Dashboard selectedDataset=.. />] when
    [activePage === "generate"], [<Datasets />] otherwise.  The
    [Dashboard] element carries no [key]. *)
Definition render (selected page : str)
    (mounted_dashboard : option Dashboard.state)
    (mounted_datasets : option Datasets.state) : state :=
  if decide (page = lit "generate")
  then {| selectedDataset := selected; activePage := page;
          dashboard := Some (default Dashboard.initial mounted_dashboard);
          datasets := None |}
  else {| selectedDataset := selected; activePage := page;
          dashboard := None;
          datasets := Some (default Datasets.initial mounted_datasets) |}.

Definition initial : state :=
  render (lit "sft") (lit "generate") None None.

Inductive event :=
| ClickRecipe (key : str)        (* a button of the Generate section *)
| ClickViewDatasets              (* the button of the Manage section *)
| Change (e : Dashboard.change_event) (field : Field.t).

Definition step (st : state) (ev : event) : state :=
  match ev with
  | ClickRecipe key =>       (* setSelectedDataset(key); setActivePage("generate") *)
      render key (lit "generate") (dashboard st) (datasets st)
  | ClickViewDatasets =>     (* setActivePage("datasets") *)
      render (selectedDataset st) (lit "datasets") (dashboard st) (datasets st)
  | Change e field =>
      {| selectedDataset := selectedDataset st; activePage := activePage st;
         dashboard := Dashboard.handleChange e field <$> dashboard st;
         datasets := datasets st |}
  end.

Definition steps (st : state) (evs : list event) : state :=
  foldl step st evs.

(** The FormValues of the form view, when it is mounted. *)
Definition FormValues (st : state) : option (gmap str (Dashboard.value Dashboard.File)) :=
  Dashboard.formData <$> dashboard st.

End WithEnv.

End App.

(** ** The side bar ([components/Sidebar.jsx]) *)

Module Sidebar.

(** A button of the side bar: its text, and whether it carries the classes
    of the active entry. *)
Record button := {
  caption : str;
  highlighted : bool
}.

(** The render: one button per entry of [Object.entries(datasetConfigs)],
    highlighted when [activePage === "generate" && selectedDataset === key],
    then the button of the Manage section, highlighted when
    [activePage === "datasets"]. *)
Definition render (selectedDataset activePage : str) : list button :=
  ((λ entry : str * Recipe.t,
      {| caption := Recipe.label entry.2;
         highlighted := bool_decide (activePage = lit "generate" ∧
                                     selectedDataset = entry.1) |})
     <$> Registry.datasetConfigs) ++
  [ {| caption := lit "View Datasets";
       highlighted := bool_decide (activePage = lit "datasets") |} ].

End Sidebar.

(** ** Vocabulary of the statements *)

Module Spec.

(** The position of the last occurrence of [h] among the headers. *)
Fixpoint last_position (h : str) (headers : list str) : option nat :=
  match headers with
  | [] => None
  | x :: rest =>
      match last_position h rest with
      | Some j => Some (S j)
      | None => if decide (x = h) then Some 0%nat else None
      end
  end.

(** The text ["a,b\n1,2\n3"]. *)
Definition sample_csv : str :=
  lit "a,b" ++ [LF] ++ lit "1,2" ++ [LF] ++ lit "3".

Section WithEnv.
Context `{Dashboard.Env}.
Import Dashboard.

(** The value of a field is absent from the FormValues: nothing was entered
    under its name, or what was entered is [undefined] (a file control
    without a file) or the empty string. *)
Definition absent (formData : gmap str (value File)) (field : Field.t) : Prop :=
  match formData !! Field.name field with
  | None | Some VUndefined | Some (VString []) => True
  | Some _ => False
  end.

#[global] Instance absent_dec (formData : gmap str (value File))
    (field : Field.t) : Decision (absent formData field).
Proof.
  unfold absent.
  destruct (formData !! Field.name field) as [[| [|] | |]|]; apply _.
Defined.

(** The value entered for a field. *)
Definition entered (formData : gmap str (value File)) (field : Field.t)
    : value File :=
  default VUndefined (formData !! Field.name field).

(** The multipart entry of a field: the numeric coercion of the entered
    value for a field named [num_pairs], the entered value otherwise. *)
Definition entry_of (formData : gmap str (value File)) (field : Field.t)
    : str * appended :=
  (Field.name field,
   if decide (Field.name field = lit "num_pairs")
   then ANumber (Number (entered formData field))
   else AValue (entered formData field)).

(** The two outcomes of a submit attempt. *)
Definition Failure (m : str) : status_message :=
  {| type := lit "error"; text := Some (JString m) |}.

Definition Success (m : option (json jsnumber)) : status_message :=
  {| type := lit "success"; text := m |}.

(** No field name collides with a member of [Object.prototype]. *)
Definition plain_names (fields : list Field.t) : Prop :=
  Forall (λ f, Field.name f ∉ Object_prototype_keys) fields.

End WithEnv.

(** *** An environment to evaluate the functions in

    File handles are names.  A number of a response body is identified
    with its string conversion (["0"] for both zeros), which is all the
    code observes of it.  The number [Number(v)] of a form value is kept
    as that value; its string conversion is computed where [v] is not a
    string (NaN), for a blank string (zero), for [Infinity] and for the
    signed decimal numerals without exponent that have at most 15
    significant digits and are not below 10^-6, and every other string is
    taken for one that is not a numeral (NaN). *)
Inductive sample_number :=
| Coerced (v : Dashboard.value str)
| BodyNumber (text : str).

Definition is_digit (c : N) : bool := (48 <=? c) && (c <=? 57).

Fixpoint str_eqb (a b : str) : bool :=
  match a, b with
  | [], [] => true
  | x :: a', y :: b' => (x =? y) && str_eqb a' b'
  | _, _ => false
  end.

Definition is_empty (s : str) : bool :=
  match s with [] => true | _ :: _ => false end.

Fixpoint strip_zeros (s : str) : str :=
  match s with
  | 48 :: r => strip_zeros r
  | _ => s
  end.

(** The string conversion of the number written [t], an unsigned decimal
    numeral of the kind described above. *)
Definition unsigned_decimal (t : str) : option str :=
  let parts := split 46 t in
  let i := default [] (parts !! 0%nat) in
  let f := default [] (parts !! 1%nat) in
  if (length parts <=? 2)%nat && forallb is_digit (i ++ f)
     && negb (is_empty (i ++ f))
  then
    let i' := strip_zeros i in
    let f' := rev (strip_zeros (rev f)) in
    if is_empty i' then
      if is_empty f' then Some (lit "0")
      else if (length f' - length (strip_zeros f') <? 6)%nat
              && (length (strip_zeros f') <=? 15)%nat
           then Some (lit "0." ++ f') else None
    else if (length i' + length f' <=? 15)%nat
         then Some (i' ++ if is_empty f' then [] else 46 :: f')
         else None
  else None.

Definition coerced_text_def (v : Dashboard.value str) : str :=
  match v with
  | Dashboard.VString s =>
      match trim s with
      | [] => lit "0"
      | 45 :: r =>
          if str_eqb r (lit "Infinity") then lit "-Infinity"
          else match unsigned_decimal r with
               | Some d => if str_eqb d (lit "0") then d else 45 :: d
               | None => lit "NaN"
               end
      | 43 :: r =>
          if str_eqb r (lit "Infinity") then r
          else default (lit "NaN") (unsigned_decimal r)
      | t =>
          if str_eqb t (lit "Infinity") then t
          else default (lit "NaN") (unsigned_decimal t)
      end
  | _ => lit "NaN"
  end.

(** [coerced_text] is sealed: evaluating a statement leaves it folded, and
    [coerced_text_unseal] gives its definition back. *)
Definition coerced_text_aux : seal coerced_text_def.
Proof. by eexists. Qed.

Definition coerced_text : Dashboard.value str → str :=
  coerced_text_aux.(unseal).

Definition coerced_text_unseal : coerced_text = coerced_text_def :=
  coerced_text_aux.(seal_eq).

Definition number_text (n : sample_number) : str :=
  match n with
  | Coerced v => coerced_text v
  | BodyNumber text => text
  end.

(** A number is truthy unless it is a zero or NaN. *)
Definition number_truthy (n : sample_number) : bool :=
  negb (str_eqb (number_text n) (lit "0")) &&
  negb (str_eqb (number_text n) (lit "NaN")).

(** The string conversion of a parsed body: an array joins its elements
    with commas, [null] elements giving nothing; an object gives
    ["[object Object]"] unless it has a property [toString] of its own,
    which is not callable, so that the conversion throws. *)
Fixpoint sample_ToString (x : Dashboard.json sample_number)
    : Dashboard.completion str :=
  match x with
  | Dashboard.JNull => Dashboard.Normal (lit "null")
  | Dashboard.JBool b => Dashboard.Normal (if b then lit "true" else lit "false")
  | Dashboard.JNumber n => Dashboard.Normal (number_text n)
  | Dashboard.JString s => Dashboard.Normal s
  | Dashboard.JArray items =>
      (fix join_items (l : list (Dashboard.json sample_number))
         : Dashboard.completion str :=
         match l with
         | [] => Dashboard.Normal []
         | item :: rest =>
             match (match item with
                    | Dashboard.JNull => Dashboard.Normal []
                    | _ => sample_ToString item
                    end), rest with
             | Dashboard.Throw m, _ => Dashboard.Throw m
             | Dashboard.Normal t, [] => Dashboard.Normal t
             | Dashboard.Normal t, _ :: _ =>
                 match join_items rest with
                 | Dashboard.Normal more => Dashboard.Normal (t ++ 44 :: more)
                 | Dashboard.Throw m => Dashboard.Throw m
                 end
             end
         end) items
  | Dashboard.JObject props =>
      if existsb (λ p, str_eqb p.1 (lit "toString")) props
      then Dashboard.Throw (lit "Cannot convert object to primitive value")
      else Dashboard.Normal (lit "[object Object]")
  end.

Definition sample_env : Dashboard.Env :=
  {| Dashboard.File := str;
     Dashboard.jsnumber := sample_number;
     Dashboard.API_BASE := lit "http://localhost:8000";
     Dashboard.Number := Coerced;
     Dashboard.ToBoolean_number := number_truthy;
     Dashboard.ToString_nonstring := sample_ToString;
     Dashboard.TypeError_null := λ k,
       lit "Cannot read properties of null (reading '" ++ k ++ lit "')" |}.

(** A filled form of the NL-to-SQL recipe. *)
Definition nl_sql_form : gmap str (Dashboard.value str) :=
  <[lit "schema_file" := Dashboard.VFile (lit "schema.json")]>
  (<[lit "model" := Dashboard.VString (lit "gpt")]>
  (<[lit "num_samples" := Dashboard.VString (lit "5")]>
  (<[lit "output_name" := Dashboard.VString (lit "out")]> ∅))).

(** A filled form of the RAG-QA recipe, which has a [num_pairs] field. *)
Definition rag_qa_form : gmap str (Dashboard.value str) :=
  <[lit "context_file" := Dashboard.VFile (lit "notes.txt")]>
  (<[lit "model" := Dashboard.VString (lit "gpt")]>
  (<[lit "difficulty" := Dashboard.VString (lit "easy")]>
  (<[lit "num_pairs" := Dashboard.VString (lit "5")]>
  (<[lit "output_name" := Dashboard.VString (lit "out")]> ∅)))).

(** [pieces.join(sep)], the inverse of [split] used to state that a
    split loses nothing. *)
Fixpoint join (sep : N) (pieces : list str) : str :=
  match pieces with
  | [] => []
  | p :: rest =>
      match rest with
      | [] => p
      | _ :: _ => p ++ sep :: join sep rest
      end
  end.

(** The number of occurrences of a code unit in a string. *)
Definition count (c : N) (s : str) : nat :=
  length (filter (λ x, x = c) s).

(** A string of white space only. *)
Definition blank (s : str) : Prop :=
  Forall (λ c, isWhiteSpace c = true) s.

Section Edits.
Context `{Dashboard.Env}.
Import Dashboard.

(** What an edit of a control stores: the first file picked for a file
    control ([undefined] when there is none), the text of the control
    otherwise. *)
Definition stored (e : change_event) (field : Field.t) : value File :=
  if decide (Field.type field = lit "file")
  then match target_files e with
       | f :: _ => VFile f
       | [] => VUndefined
       end
  else VString (target_value e).

(** A sequence of edits, each re-rendered before the next. *)
Definition edits (evs : list (change_event * Field.t)) (st : state) : state :=
  foldl (λ st ef, handleChange ef.1 ef.2 st) st evs.

(** The entry appended for an edited field. *)
Definition entry_of_edit (ef : change_event * Field.t) : str * appended :=
  (Field.name ef.2,
   if decide (Field.name ef.2 = lit "num_pairs")
   then ANumber (Number (stored ef.1 ef.2))
   else AValue (stored ef.1 ef.2)).

(** One page component is mounted, the one of the active page. *)
Definition one_page_mounted (st : App.state) : Prop :=
  (App.activePage st = lit "generate" ∧ is_Some (App.dashboard st) ∧
   App.datasets st = None) ∨
  (App.activePage st = lit "datasets" ∧ App.dashboard st = None ∧
   is_Some (App.datasets st)).

(** The recipe buttons an event sequence clicks are buttons that exist. *)
Definition clicks_registry (evs : list App.event) : Prop :=
  Forall (λ ev, match ev with
                | App.ClickRecipe key => key ∈ Registry.datasetConfigs.*1
                | _ => True
                end) evs.

End Edits.

(** A sequence of selections in the type selector of the browser, with the
    requests they cause. *)
Definition select_all (keys : list str) (st : Datasets.state)
    : Datasets.state * list Datasets.request :=
  foldl (λ acc key,
           let r := Datasets.setDatasetType key acc.1 in (r.1, acc.2 ++ r.2))
        (st, []) keys.

(** A delete clicked in the render of state [st], the selections [keys]
    made in the type selector while its DELETE is pending, and the DELETE
    settling after them.  The result is the state at that moment and the
    requests in the order they are issued: the DELETE, the list requests of
    the selections, and what [deleteDataset] issues after its [await]. *)
Definition delete_during_selections (filename : str) (keys : list str)
    (st : Datasets.state) (outcome : Datasets.settled)
    : Datasets.state * list Datasets.request :=
  let selected := select_all keys st in
  (selected.1,
   [Datasets.DELETE (Datasets.file_url (Datasets.datasetType st) filename)]
   ++ selected.2 ++ Datasets.deleteDataset_resumed st outcome).

(** The selections that change the selected type, [current] being the type
    selected before. *)
Fixpoint changes (current : str) (keys : list str) : list str :=
  match keys with
  | [] => []
  | key :: rest =>
      if decide (key = current) then changes current rest
      else key :: changes key rest
  end.

End Spec.

(** * Properties of the tabular preview *)

Section Preview.
Import Datasets Spec.

Lemma split_cons (sep : N) (s : str) :
  ∃ piece more, split sep s = piece :: more.
Proof.
  destruct s as [|c r]; simpl; [by eauto|].
  destruct (c =? sep); [by eauto|].
  destruct (split sep r); eauto.
Qed.

(** The guard [if (!rows.length) return;] never fires: whatever the text,
    [parseCSV] sets at least one column. *)
Lemma parseCSV_sets_a_column (csvText : str) (st : state) :
  columnDefs (parseCSV csvText st) ≠ [].
Proof.
  unfold parseCSV.
  destruct (split_cons LF (trim csvText)) as (line & more & ->). simpl.
  destruct (split_cons comma line) as (h & hs & ->). simpl. discriminate.
Qed.

Lemma parseCSV_columns (csvText : str) (st : state) :
  ∃ headers dataRows,
    split comma <$> split LF (trim csvText) = headers :: dataRows ∧
    columnDefs (parseCSV csvText st)
      = (λ h, {| headerName := h; field := h |}) <$> headers ∧
    rowData (parseCSV csvText st) = formatRow headers <$> dataRows.
Proof.
  unfold parseCSV.
  destruct (split_cons LF (trim csvText)) as (line & more & ->). simpl.
  eauto.
Qed.

Lemma last_position_None (h : str) (headers : list str) :
  last_position h headers = None ↔ h ∉ headers.
Proof.
  induction headers as [|x rest IH]; simpl.
  - split; [intros _; apply not_elem_of_nil | done].
  - rewrite not_elem_of_cons. destruct (last_position h rest) as [j|].
    + split; [done|]. intros [_ Hn]. by apply IH in Hn.
    + destruct (decide (x = h)) as [->|Hne].
      * split; [done | by intros [? _]].
      * split; [intros _ | done]. split; [congruence | by apply IH].
Qed.

Lemma last_position_Some (h : str) (headers : list str) (j : nat) :
  last_position h headers = Some j →
  headers !! j = Some h ∧ ∀ k, headers !! k = Some h → (k ≤ j)%nat.
Proof.
  revert j. induction headers as [|x rest IH]; simpl; [done|].
  intros j. destruct (last_position h rest) as [j'|] eqn:E.
  - intros [= <-]. destruct (IH j' eq_refl) as [Hj Hmax]. split; [done|].
    intros [|k] Hk; [lia|]. apply Hmax in Hk. lia.
  - destruct (decide (x = h)) as [->|Hne]; [|done].
    intros [= <-]. split; [done|].
    intros [|k] Hk; [lia|]. simpl in Hk.
    apply last_position_None in E. exfalso. apply E.
    by eapply list_elem_of_lookup_2.
Qed.

(** What the loop over the headers leaves under a name other than
    [__proto__]: the cell at the last position of that name. *)
Lemma forEach_header_lookup (headers : list str) (i : nat) (row : list str)
    (obj : gmap str str) (h : str) :
  h ≠ lit "__proto__" →
  forEach_header headers i row obj !! h =
    match last_position h headers with
    | Some j => Some (or_empty (row !! (i + j)%nat))
    | None => obj !! h
    end.
Proof.
  intros Hp. revert i obj.
  induction headers as [|x rest IH]; intros i obj; simpl; [done|].
  rewrite IH. destruct (last_position h rest) as [j|].
  - f_equal. f_equal. f_equal. lia.
  - unfold js_set. destruct (decide (x = h)) as [->|Hne].
    + rewrite decide_False by done. rewrite lookup_insert_eq.
      by rewrite Nat.add_0_r.
    + destruct (decide (x = lit "__proto__")); [done|].
      by rewrite lookup_insert_ne.
Qed.

(** Nothing is ever stored under the name [__proto__]. *)
Lemma forEach_header_proto (headers : list str) (i : nat) (row : list str)
    (obj : gmap str str) :
  forEach_header headers i row obj !! lit "__proto__" = obj !! lit "__proto__".
Proof.
  revert i obj. induction headers as [|x rest IH]; intros i obj; simpl; [done|].
  rewrite IH. unfold js_set. destruct (decide (x = lit "__proto__")); [done|].
  by rewrite lookup_insert_ne.
Qed.

(** The entries of a row object, name by name. *)
Lemma formatRow_lookup (headers row : list str) (h : str) :
  formatRow headers row !! h =
    if decide (h = lit "__proto__") then None
    else (λ j, or_empty (row !! j)) <$> last_position h headers.
Proof.
  unfold formatRow. destruct (decide (h = lit "__proto__")) as [->|Hp].
  - by rewrite forEach_header_proto.
  - rewrite forEach_header_lookup by done.
    by destruct (last_position h headers).
Qed.

(** A cell missing at the end of a data row is the empty string in the
    row object, under every column name other than [__proto__]. *)
Lemma formatRow_fills_missing (headers row : list str) (i : nat) (h : str) :
  headers !! i = Some h →
  (length row ≤ i)%nat →
  h ≠ lit "__proto__" →
  formatRow headers row !! h = Some [].
Proof.
  intros Hi Hlen Hp. rewrite formatRow_lookup, decide_False by done.
  destruct (last_position h headers) as [j|] eqn:E.
  - apply last_position_Some in E as [_ Hmax]. apply Hmax in Hi.
    simpl. rewrite lookup_ge_None_2 by lia. done.
  - apply last_position_None in E. exfalso. apply E.
    by eapply list_elem_of_lookup_2.
Qed.

(** The example of the specification. *)
Lemma parseCSV_sample (st : state) :
  columnDefs (parseCSV sample_csv st)
    = [ {| headerName := lit "a"; field := lit "a" |};
        {| headerName := lit "b"; field := lit "b" |} ] ∧
  rowData (parseCSV sample_csv st)
    = [ <[lit "a" := lit "1"]> (<[lit "b" := lit "2"]> ∅);
        <[lit "a" := lit "3"]> (<[lit "b" := []]> ∅) ].
Proof. split; vm_compute; reflexivity. Qed.

(** C1, at the text ["a,__proto__\n1"]: the data row is one cell short of
    the two headers, and the row object gets no entry for the second
    column: the assignment to [obj["__proto__"]] stores nothing. *)
Theorem parseCSV_short_row_proto_column :
  let preview := parseCSV (lit "a,__proto__" ++ [LF] ++ lit "1") initial in
  field <$> columnDefs preview = [lit "a"; lit "__proto__"] ∧
  rowData preview = [ <[lit "a" := lit "1"]> ∅ ] ∧
  ∀ obj, obj ∈ rowData preview → obj !! lit "__proto__" = None.
Proof.
  intros preview.
  assert (E : rowData preview = [ <[lit "a" := lit "1"]> ∅ ])
    by (vm_compute; reflexivity).
  split; [vm_compute; reflexivity|]. split; [exact E|].
  intros obj. rewrite E, list_elem_of_singleton. intros ->.
  by rewrite lookup_insert_ne.
Qed.

(** C2, at the empty text: the preview has one column, named by the empty
    string, and no rows. *)
Theorem parseCSV_empty_text (st : state) :
  columnDefs (parseCSV [] st) = [ {| headerName := []; field := [] |} ] ∧
  rowData (parseCSV [] st) = [].
Proof. split; reflexivity. Qed.

(** C10, at the text ["__proto__,__proto__\n1,2"]: the two columns of the
    same name are kept, and the row object has no entry at all, so it does
    not hold the cell ["2"] of the last occurrence. *)
Theorem parseCSV_duplicate_proto_columns :
  let preview :=
    parseCSV (lit "__proto__,__proto__" ++ [LF] ++ lit "1,2") initial in
  field <$> columnDefs preview = [lit "__proto__"; lit "__proto__"] ∧
  rowData preview = [ ∅ ] ∧
  ∀ obj, obj ∈ rowData preview → obj !! lit "__proto__" = None.
Proof.
  intros preview.
  assert (E : rowData preview = [ ∅ ]) by (vm_compute; reflexivity).
  split; [vm_compute; reflexivity|]. split; [exact E|].
  intros obj. rewrite E, list_elem_of_singleton. by intros ->.
Qed.

(** Duplicate headers in general: the column list has one column per
    header occurrence, and a row object has, for each header name other
    than [__proto__], one entry, which holds the cell at the last position
    of that name (the empty string when the row ends before it). *)
Lemma parseCSV_duplicate_headers (csvText : str) (st : state) :
  ∃ headers dataRows,
    split comma <$> split LF (trim csvText) = headers :: dataRows ∧
    headerName <$> columnDefs (parseCSV csvText st) = headers ∧
    ∀ n row, dataRows !! n = Some row →
      ∃ obj, rowData (parseCSV csvText st) !! n = Some obj ∧
        ∀ h, h ≠ lit "__proto__" →
          obj !! h = (λ j, or_empty (row !! j)) <$> last_position h headers.
Proof.
  destruct (parseCSV_columns csvText st) as (headers & dataRows & E & Hc & Hr).
  exists headers, dataRows. split; [done|]. split.
  - rewrite Hc, <- list_fmap_compose. simpl. apply list_fmap_id.
  - intros n row Hn. exists (formatRow headers row). split.
    + by rewrite Hr, list_lookup_fmap, Hn.
    + intros h Hp. by rewrite formatRow_lookup, decide_False.
Qed.

End Preview.

(** * Properties of the form submitter *)

Section Submit.
Context `{Dashboard.Env}.
Import Dashboard Spec.

Lemma js_get_plain (formData : gmap str (value File)) (k : str) :
  k ∉ Object_prototype_keys →
  js_get formData k = default VUndefined (formData !! k).
Proof.
  intros Hk. unfold js_get. destruct (formData !! k); [done|].
  by rewrite decide_False.
Qed.

Lemma truthy_absent (formData : gmap str (value File)) (field : Field.t) :
  Field.name field ∉ Object_prototype_keys →
  absent formData field →
  truthy (js_get formData (Field.name field)) = false.
Proof.
  intros Hk. rewrite js_get_plain by done. unfold absent.
  destruct (formData !! Field.name field) as [[| [|] | |]|]; simpl; done.
Qed.

Lemma truthy_present (formData : gmap str (value File)) (field : Field.t) :
  Field.name field ∉ Object_prototype_keys →
  ¬ absent formData field →
  truthy (js_get formData (Field.name field)) = true ∧
  js_get formData (Field.name field) = entered formData field.
Proof.
  intros Hk. rewrite js_get_plain by done. unfold absent, entered.
  destruct (formData !! Field.name field) as [[| [|] | |]|]; simpl;
    intros Hp; try done; by destruct Hp.
Qed.

(** The loop over a prefix of present fields appends their entries. *)
Lemma forEach_field_present (formData : gmap str (value File))
    (fields rest : list Field.t) (form : FormData) :
  plain_names fields →
  Forall (λ f, ¬ absent formData f) fields →
  forEach_field formData (fields ++ rest) form =
  forEach_field formData rest (form ++ (entry_of formData <$> fields)).
Proof.
  intros Hplain Hpres. revert form.
  induction Hpres as [|f fields Hf Hfs IH]; intros form; simpl.
  - by rewrite app_nil_r.
  - apply Forall_cons in Hplain as [Hk Hplain].
    destruct (truthy_present formData f Hk Hf) as [-> Hv]. simpl.
    rewrite IH by done. rewrite <- app_assoc. simpl.
    unfold entry_of at 2. by rewrite Hv.
Qed.

Lemma forEach_field_all_present (formData : gmap str (value File))
    (fields : list Field.t) :
  plain_names fields →
  Forall (λ f, ¬ absent formData f) fields →
  forEach_field formData fields [] = Normal (entry_of formData <$> fields).
Proof.
  intros Hplain Hpres.
  rewrite <- (app_nil_r fields) at 1.
  by rewrite forEach_field_present.
Qed.

Lemma forEach_field_first_absent (formData : gmap str (value File))
    (before after : list Field.t) (field : Field.t) :
  plain_names (before ++ field :: after) →
  Forall (λ f, ¬ absent formData f) before →
  absent formData field →
  forEach_field formData (before ++ field :: after) [] =
  Throw (Field.label field ++ lit " is required").
Proof.
  intros Hplain Hpres Habs.
  apply Forall_app in Hplain as [Hb Hplain].
  apply Forall_cons in Hplain as [Hk _].
  rewrite forEach_field_present by done. simpl.
  by rewrite truthy_absent.
Qed.

(** The field names of the six recipes are ordinary names. *)
Lemma registry_plain_names (key : str) (config : Recipe.t) :
  (key, config) ∈ Registry.datasetConfigs →
  plain_names (Recipe.fields config).
Proof.
  unfold Registry.datasetConfigs. rewrite !elem_of_cons, elem_of_nil.
  intros [E|[E|[E|[E|[E|[E|[]]]]]]]; injection E as -> ->;
    apply (bool_decide_unpack _); vm_compute; exact I.
Qed.

(** Among the elements of a list that satisfy a decidable property there
    is a first one. *)
Lemma Exists_first {A} (P : A → Prop) `{!∀ x, Decision (P x)} (l : list A) :
  Exists P l →
  ∃ before x after,
    l = before ++ x :: after ∧ Forall (λ y, ¬ P y) before ∧ P x.
Proof.
  induction 1 as [x l Hx | x l _ IH].
  - by exists [], x, l.
  - destruct (decide (P x)) as [Hx|Hx]; [by exists [], x, l|].
    destruct IH as (before & y & after & -> & Hb & Hy).
    exists (x :: before), y, after. by repeat constructor.
Qed.

(** C3: for each of the six recipes, when at least one declared field has
    no value, the attempt ends in a Failure whose text is the label of the
    first such field, in declaration order, followed by [" is required"],
    and the attempt performs no network call. *)
Theorem handleSubmit_first_absent_field (key : str) (config : Recipe.t)
    (formData : gmap str (value File)) (net : fetch_result) :
  (key, config) ∈ Registry.datasetConfigs →
  Exists (absent formData) (Recipe.fields config) →
  ∃ before field after,
    Recipe.fields config = before ++ field :: after ∧
    Forall (λ f, ¬ absent formData f) before ∧
    absent formData field ∧
    handleSubmit config formData net =
      [ setLoading true; setMessage None;
        setMessage (Some (Failure (Field.label field ++ lit " is required")));
        setLoading false ] ∧
    Forall (λ e, is_fetch e = false) (handleSubmit config formData net).
Proof.
  intros Hin Hex.
  pose proof (registry_plain_names key config Hin) as Hplain.
  destruct (Exists_first _ _ Hex) as (before & field & after & Hf & Hpres & Habs).
  exists before, field, after. repeat (split; [done|]).
  unfold handleSubmit. rewrite Hf in *.
  rewrite forEach_field_first_absent by done.
  split; [done|]. repeat constructor.
Qed.

(** C4: for each of the six recipes, when every declared field has a value
    the attempt issues one POST to the base URL followed by the endpoint of
    the recipe, whose payload has one entry per field descriptor, in order:
    the numeric coercion of the entered value for [num_pairs], the entered
    value itself for every other field.  No other network call follows. *)
Theorem handleSubmit_payload (key : str) (config : Recipe.t)
    (formData : gmap str (value File)) (net : fetch_result) :
  (key, config) ∈ Registry.datasetConfigs →
  Forall (λ f, ¬ absent formData f) (Recipe.fields config) →
  ∃ after,
    handleSubmit config formData net =
      [ setLoading true; setMessage None;
        fetch (API_BASE ++ Recipe.endpoint config) (lit "POST")
              (entry_of formData <$> Recipe.fields config) ] ++ after ∧
    Forall (λ e, is_fetch e = false) after.
Proof.
  intros Hin Hpres.
  pose proof (registry_plain_names key config Hin) as Hplain.
  unfold handleSubmit. rewrite forEach_field_all_present by done.
  destruct net as [|m|ok [m|result]]; simpl.
  - exists []. split; [done | constructor].
  - eexists. split; [done | repeat constructor].
  - eexists. split; [done | repeat constructor].
  - destruct (after_json ok result); eexists; (split; [done | repeat constructor]).
Qed.


(** C6 as amended: when the POST completes with a body that parses as JSON
    and is not [null], a non-success status leaves a Failure whose text is
    [result.detail] converted to a string if that is truthy and
    ["Backend error"] if it is missing or falsy, and a success status leaves
    a Success whose text is [result.message]; when the body does not parse,
    the outcome is a Failure with the message of the parser, whatever the
    status. *)
Theorem handleSubmit_outcome (config : Recipe.t)
    (formData : gmap str (value File)) (form : FormData) (st : state)
    (ok : bool) (result : json jsnumber)
    (detail msg : option (json jsnumber)) :
  forEach_field formData (Recipe.fields config) [] = Normal form →
  get result (lit "detail") = Normal detail →
  get result (lit "message") = Normal msg →
  let retained b :=
    message (run st (handleSubmit config formData (Response ok b))) in
  (∀ m, retained (NotJson m) = Some (Failure m)) ∧
  (ok = true → retained (Json result) = Some (Success msg)) ∧
  (ok = false → ∀ d m, detail = Some d → ToBoolean detail = true →
     ToString d = Normal m → retained (Json result) = Some (Failure m)) ∧
  (ok = false → ToBoolean detail = false →
     retained (Json result) = Some (Failure (lit "Backend error"))).
Proof.
  intros Hform Hd Hm retained. subst retained. unfold handleSubmit.
  rewrite Hform. unfold after_json. repeat split.
  - intros ->. simpl. by rewrite Hm.
  - intros -> d m -> Ht Hs. simpl. rewrite Hd, Ht. simpl. by rewrite Hs.
  - intros -> Ht. simpl. by rewrite Hd, Ht.
Qed.


End Submit.

(** * Properties of the navigation shell *)

Section Shell.
Context `{Dashboard.Env}.
Import App.

(** C5 as amended: selecting a recipe keeps the FormValues of the form view
    when that view is mounted, every entered value included; the FormValues
    are empty after the selection only when the form view was not mounted,
    which is the case once the dataset browser has been shown. *)
Theorem ClickRecipe_FormValues (st : state) (key : str) :
  FormValues (step st (ClickRecipe key)) = Some (default ∅ (FormValues st)) ∧
  FormValues (step (step st ClickViewDatasets) (ClickRecipe key)) = Some ∅.
Proof.
  unfold FormValues. simpl. unfold render. simpl.
  split; [by destruct (dashboard st) | done].
Qed.

End Shell.

(** * Properties of the dataset browser *)

Section Browser.
Import Datasets.

(** C8: a change of the selected type issues one request, the GET of the
    list of the new type, and the response to it becomes the displayed list
    whatever the list and the state were before. *)
Theorem setDatasetType_fetches_once (key : str) (st later : state)
    (res_data_datasets : list str) :
  key ≠ datasetType st →
  (setDatasetType key st).2
    = [GET (BASE_URL ++ lit "/datasets?dataset_type=" ++ key)] ∧
  datasetType (setDatasetType key st).1 = key ∧
  datasets (fetchDatasets_resolved res_data_datasets later) = res_data_datasets.
Proof.
  intros Hne. unfold setDatasetType. simpl.
  by rewrite decide_False.
Qed.

End Browser.

(** * The statements at concrete inputs *)

Section Examples.
Import Dashboard Spec.
#[local] Existing Instance sample_env.

(** With only the topic entered, the SFT form is refused for its model. *)
Lemma handleSubmit_sft_without_model :
  handleSubmit Registry.sft (<[lit "topic" := VString (lit "birds")]> ∅) Pending
    = [ setLoading true; setMessage None;
        setMessage (Some (Failure (lit "Model is required")));
        setLoading false ].
Proof. vm_compute. reflexivity. Qed.

Lemma handleSubmit_first_absent_field_witness :
  let formData : gmap str (value str) :=
    <[lit "topic" := VString (lit "birds")]> ∅ in
  Exists (absent formData) (Recipe.fields Registry.sft) ∧
  ∃ before field after,
    Recipe.fields Registry.sft = before ++ field :: after ∧
    Forall (λ f, ¬ absent formData f) before ∧
    absent formData field ∧
    handleSubmit Registry.sft formData Pending =
      [ setLoading true; setMessage None;
        setMessage (Some (Failure (Field.label field ++ lit " is required")));
        setLoading false ] ∧
    Forall (λ e, is_fetch e = false)
      (handleSubmit Registry.sft formData Pending).
Proof.
  intros formData.
  assert (Hex : Exists (absent formData) (Recipe.fields Registry.sft))
    by (apply Exists_cons_tl, Exists_cons_hd; vm_compute; exact I).
  assert (Hin : (lit "sft", Registry.sft) ∈ Registry.datasetConfigs)
    by repeat constructor.
  split; [exact Hex|].
  exact (handleSubmit_first_absent_field (H := sample_env) (lit "sft")
           Registry.sft formData Pending Hin Hex).
Defined.

Lemma handleSubmit_payload_witness :
  Forall (λ f, ¬ absent rag_qa_form f) (Recipe.fields Registry.rag_qa) ∧
  ∃ after,
    handleSubmit Registry.rag_qa rag_qa_form Pending =
      [ setLoading true; setMessage None;
        fetch (lit "http://localhost:8000/generate/rag_qa") (lit "POST")
          [ (lit "context_file", AValue (VFile (lit "notes.txt")));
            (lit "model", AValue (VString (lit "gpt")));
            (lit "difficulty", AValue (VString (lit "easy")));
            (lit "num_pairs", ANumber (Coerced (VString (lit "5"))));
            (lit "output_name", AValue (VString (lit "out"))) ] ] ++ after ∧
    Forall (λ e, is_fetch e = false) after.
Proof.
  assert (Hpres : Forall (λ f, ¬ absent rag_qa_form f)
                    (Recipe.fields Registry.rag_qa))
    by (repeat constructor; vm_compute; tauto).
  split; [exact Hpres|].
  refine (handleSubmit_payload (H := sample_env) (lit "rag_qa") Registry.rag_qa rag_qa_form
            Pending _ Hpres).
  repeat constructor.
Defined.

(** C5 as stated fails: a value typed under the first recipe is still in
    the FormValues after another recipe has been selected. *)
Lemma recipe_change_keeps_entered_value :
  let typed := {| target_value := lit "gpt"; target_files := [] |} in
  let st := App.steps App.initial
              [ App.Change typed (Registry.input "model" "Model" "text");
                App.ClickRecipe (lit "nl_sql") ] in
  App.selectedDataset st = lit "nl_sql" ∧
  App.FormValues st = Some (<[lit "model" := VString (lit "gpt")]> ∅) ∧
  App.FormValues st ≠ Some ∅.
Proof.
  intros typed st.
  assert (E : App.FormValues st
              = Some (<[lit "model" := VString (lit "gpt")]> ∅))
    by (vm_compute; reflexivity).
  split; [vm_compute; reflexivity|]. split; [exact E|].
  rewrite E. intros Hm.
  apply (f_equal (λ o : option (gmap str (value str)),
                    o ≫= (λ m, m !! lit "model"))) in Hm.
  simpl in Hm. rewrite lookup_insert_eq, lookup_empty in Hm. discriminate.
Qed.

(** C6 as stated fails where the body of the response is not JSON: with a
    success status the attempt leaves a Failure, and with a non-success
    status the text of the Failure is the message of the parser, not
    ["Backend error"]. *)
Lemma unparsable_body_outcome :
  let m := lit "Unexpected token I in JSON at position 0" in
  let retained ok :=
    message (run initial
               (handleSubmit Registry.nl_sql nl_sql_form
                  (Response ok (NotJson m)))) in
  is_fetch <$> handleSubmit Registry.nl_sql nl_sql_form
                 (Response true (NotJson m))
    = [false; false; true; false; false] ∧
  retained true = Some (Failure m) ∧
  (∀ text, retained true ≠ Some (Success text)) ∧
  retained false = Some (Failure m) ∧
  retained false ≠ Some (Failure (lit "Backend error")).
Proof.
  intros m retained.
  assert (E : ∀ ok, retained ok = Some (Failure m))
    by (intros []; vm_compute; reflexivity).
  split; [vm_compute; reflexivity|]. rewrite !E.
  split; [done|]. split; [|split; [done|]].
  - intros text Hs.
    apply (f_equal (λ o : option status_message, type <$> o)) in Hs.
    vm_compute in Hs. discriminate.
  - intros Hs.
    apply (f_equal (λ o : option status_message, o ≫= text)) in Hs.
    vm_compute in Hs. discriminate.
Qed.

Lemma handleSubmit_outcome_witness :
  let result : json sample_number :=
    JObject [ (lit "detail", JString (lit "Model not found")) ] in
  let st b := run initial
                (handleSubmit Registry.nl_sql nl_sql_form (Response false b)) in
  get result (lit "detail") = Normal (Some (JString (lit "Model not found"))) ∧
  message (st (Json result)) = Some (Failure (lit "Model not found")) ∧
  message (st (NotJson (lit "Unexpected token"))) =
    Some (Failure (lit "Unexpected token")).
Proof.
  intros result st.
  assert (Hd : get result (lit "detail")
               = Normal (Some (JString (lit "Model not found"))))
    by (vm_compute; reflexivity).
  assert (Hm : get result (lit "message") = Normal None)
    by (vm_compute; reflexivity).
  assert (Hform : forEach_field nl_sql_form (Recipe.fields Registry.nl_sql) []
                  = Normal (entry_of (H := sample_env) nl_sql_form
                              <$> Recipe.fields Registry.nl_sql))
    by (vm_compute; reflexivity).
  destruct (handleSubmit_outcome (H := sample_env) Registry.nl_sql
              nl_sql_form _ initial false result _ _ Hform Hd Hm)
    as (Hparse & _ & Hdetail & _).
  split; [exact Hd|]. split.
  - exact (Hdetail eq_refl _ _ eq_refl eq_refl eq_refl).
  - exact (Hparse _).
Defined.


Lemma setDatasetType_fetches_once_witness :
  lit "rag_qa" ≠ Datasets.datasetType Datasets.initial ∧
  (Datasets.setDatasetType (lit "rag_qa") Datasets.initial).2
    = [Datasets.GET
         (lit "http://localhost:8000/datasets?dataset_type=rag_qa")] ∧
  Datasets.datasets
    (Datasets.fetchDatasets_resolved [lit "b.csv"]
       (Datasets.fetchDatasets_resolved [lit "a.csv"]
          (Datasets.setDatasetType (lit "rag_qa") Datasets.initial).1))
    = [lit "b.csv"].
Proof.
  assert (Hne : lit "rag_qa" ≠ Datasets.datasetType Datasets.initial)
    by (vm_compute; discriminate).
  split; [exact Hne|].
  destruct (setDatasetType_fetches_once (lit "rag_qa") Datasets.initial
              (Datasets.fetchDatasets_resolved [lit "a.csv"]
                 (Datasets.setDatasetType (lit "rag_qa") Datasets.initial).1)
              [lit "b.csv"] Hne) as (Hreq & _ & Hlist).
  split; [exact Hreq | exact Hlist].
Defined.

End Examples.

(** * Further properties of the tabular preview *)

Section PreviewMore.
Import Datasets Spec.

Lemma join_cons (sep : N) (p q : str) (rest : list str) :
  join sep (p :: q :: rest) = p ++ sep :: join sep (q :: rest).
Proof. reflexivity. Qed.

Lemma split_join (sep : N) (s : str) : join sep (split sep s) = s.
Proof.
  induction s as [|c r IH]; [done|]. cbn [split].
  destruct (split_cons sep r) as (piece & more & E). rewrite E in *.
  destruct (N.eqb_spec c sep) as [->|Hne].
  - by rewrite join_cons, IH.
  - destruct more as [|q more]; [by rewrite <- IH|].
    rewrite join_cons in *. by rewrite <- IH.
Qed.

Lemma split_pieces (sep : N) (s : str) :
  Forall (λ piece, (sep ∉ piece) ∧ (∀ c, c ∈ piece → c ∈ s)) (split sep s) ∧
  length (split sep s) = S (count sep s).
Proof.
  unfold count. induction s as [|c r [IHp IHl]]; cbn [split].
  - split; [|done]. repeat constructor; [apply not_elem_of_nil|].
    by intros c Hc.
  - destruct (split_cons sep r) as (piece & more & E). rewrite E in *.
    apply Forall_cons in IHp as [[Hp Hsub] IHp].
    assert (Hmore : Forall (λ piece,
                      (sep ∉ piece) ∧ (∀ x, x ∈ piece → x ∈ c :: r)) more).
    { eapply Forall_impl; [exact IHp|]. intros q [Hq Hs]. split; [done|].
      intros x Hx. right. by apply Hs. }
    destruct (N.eqb_spec c sep) as [->|Hne].
    + rewrite filter_cons_True by done. split; [|simpl in *; lia].
      constructor; [split; [apply not_elem_of_nil | by intros x ?%elem_of_nil]|].
      constructor; [|done]. split; [done|]. intros x Hx. right. by apply Hsub.
    + rewrite filter_cons_False by done. split; [|simpl in *; lia].
      constructor; [|done]. split.
      * rewrite not_elem_of_cons. split; [congruence | done].
      * intros x [->|Hx]%elem_of_cons; [by left | right; by apply Hsub].
Qed.

(** The cells of every line of the text are free of both separators. *)
Lemma cells_without_separators (text : str) :
  Forall (Forall (λ cell, (comma ∉ cell) ∧ (LF ∉ cell)))
    (split comma <$> split LF text).
Proof.
  apply Forall_fmap, Forall_forall. intros line Hline. simpl.
  destruct (split_pieces LF text) as [Hlines _].
  rewrite Forall_forall in Hlines. destruct (Hlines line Hline) as [Hlf _].
  destruct (split_pieces comma line) as [Hcells _].
  eapply Forall_impl; [exact Hcells|]. intros cell [Hc Hsub].
  split; [done|]. intros Hin. by apply Hlf, Hsub.
Qed.

(** X1: [parseCSV] does no unquoting, so no column name and no cell of the
    preview ever contains a comma or a line feed; the field of a column is
    its header name. *)
Theorem parseCSV_cells_have_no_separator (csvText : str) (st : state) :
  Forall (λ col, (comma ∉ headerName col) ∧ (LF ∉ headerName col) ∧
                 field col = headerName col)
    (columnDefs (parseCSV csvText st)) ∧
  Forall (λ obj : gmap str str,
            ∀ h v, obj !! h = Some v → (comma ∉ v) ∧ (LF ∉ v))
    (rowData (parseCSV csvText st)).
Proof.
  destruct (parseCSV_columns csvText st) as (headers & dataRows & E & -> & ->).
  pose proof (cells_without_separators (trim csvText)) as Hall.
  rewrite E in Hall. apply Forall_cons in Hall as [Hh Hd]. split.
  - apply Forall_fmap. eapply Forall_impl; [exact Hh|].
    by intros h [??].
  - apply Forall_fmap. eapply Forall_impl; [exact Hd|].
    intros row Hrow h v. simpl. rewrite formatRow_lookup.
    destruct (decide (h = lit "__proto__")); [done|].
    destruct (last_position h headers) as [j|]; [|done].
    simpl. intros [= <-]. destruct (row !! j) as [[|c cell]|] eqn:Hj; simpl;
      try (split; apply not_elem_of_nil).
    rewrite Forall_forall in Hrow. apply Hrow.
    by eapply list_elem_of_lookup_2.
Qed.

(** X2: the preview has one row per line feed of the trimmed text, blank
    lines included, and one column more than the first line has commas. *)
Theorem parseCSV_sizes (csvText : str) (st : state) :
  length (rowData (parseCSV csvText st)) = count LF (trim csvText) ∧
  length (columnDefs (parseCSV csvText st))
    = S (count comma (default [] (head (split LF (trim csvText))))).
Proof.
  destruct (parseCSV_columns csvText st) as (headers & dataRows & E & -> & ->).
  rewrite !length_fmap.
  destruct (split_pieces LF (trim csvText)) as [_ Hlen].
  destruct (split LF (trim csvText)) as [|line lines]; [done|].
  simpl in *. injection E as <- <-. rewrite length_fmap. split; [lia|].
  apply split_pieces.
Qed.

Lemma last_position_lt (h : str) (headers : list str) (j : nat) :
  last_position h headers = Some j → (j < length headers)%nat.
Proof.
  intros [Hj _]%last_position_Some. by eapply lookup_lt_Some.
Qed.

(** X3: cells of a data row beyond the number of headers are dropped: the
    row object is the one of the row cut to the length of the header row. *)
Theorem formatRow_drops_surplus (headers row : list str) :
  formatRow headers row = formatRow headers (take (length headers) row).
Proof.
  apply map_eq. intros h. rewrite !formatRow_lookup.
  destruct (decide (h = lit "__proto__")); [done|].
  destruct (last_position h headers) as [j|] eqn:E; [|done].
  simpl. by rewrite lookup_take_lt by by eapply last_position_lt.
Qed.

(** X4: the names under which a row object has an entry are the header
    names other than [__proto__], whatever the data row is. *)
Theorem formatRow_keys (headers row : list str) (h : str) :
  is_Some (formatRow headers row !! h) ↔ h ∈ headers ∧ h ≠ lit "__proto__".
Proof.
  rewrite formatRow_lookup.
  destruct (decide (h = lit "__proto__")) as [->|Hp].
  - split; [by intros [? ?] | by intros [_ ?]].
  - destruct (last_position h headers) as [j|] eqn:E; simpl.
    + split; [|by eauto]. intros _. split; [|done].
      apply last_position_Some in E as [Hj _].
      by eapply list_elem_of_lookup_2.
    + apply last_position_None in E. split; [by intros [? ?] | by intros [? _]].
Qed.

(** X5: when the header names are pairwise distinct, each column other
    than [__proto__] holds the cell at its own position, or the empty string
    when the row has no cell there. *)
Theorem formatRow_positional (headers row : list str) (i : nat) (h : str) :
  NoDup headers →
  headers !! i = Some h →
  h ≠ lit "__proto__" →
  formatRow headers row !! h = Some (or_empty (row !! i)).
Proof.
  intros Hnd Hi Hp. rewrite formatRow_lookup, decide_False by done.
  destruct (last_position h headers) as [j|] eqn:E.
  - apply last_position_Some in E as [Hj _]. simpl.
    by rewrite (NoDup_lookup _ _ _ _ Hnd Hi Hj).
  - apply last_position_None in E. exfalso. apply E.
    by eapply list_elem_of_lookup_2.
Qed.

Lemma trimStart_blank (ws s : str) :
  blank ws → trimStart (ws ++ s) = trimStart s.
Proof. induction 1 as [|c ws Hc _ IH]; simpl; [done|]. by rewrite Hc. Qed.

Lemma trimEnd_blank (s ws : str) :
  blank ws → trimEnd (s ++ ws) = trimEnd s.
Proof.
  intros Hws. unfold trimEnd. rewrite rev_app_distr.
  rewrite trimStart_blank; [done|]. by apply Forall_rev.
Qed.

Lemma trim_blank (ws s ws' : str) :
  blank ws → blank ws' → trim (ws ++ s ++ ws') = trim s.
Proof.
  intros Hws Hws'. unfold trim. rewrite trimStart_blank by done.
  induction s as [|c r IH]; simpl.
  - pose proof (trimStart_blank ws' [] Hws') as E. rewrite app_nil_r in E.
    by rewrite E.
  - destruct (isWhiteSpace c); [done|].
    exact (trimEnd_blank (c :: r) ws' Hws').
Qed.

(** X6: white space around the text, blank lines included, plays no part
    in the preview. *)
Theorem parseCSV_ignores_surrounding_blank (ws csvText ws' : str) (st : state) :
  blank ws →
  blank ws' →
  parseCSV (ws ++ csvText ++ ws') st = parseCSV csvText st.
Proof. intros Hws Hws'. unfold parseCSV. by rewrite trim_blank. Qed.

(** X7: when the content of a file arrives as a string, showing it
    replaces the preview as a whole: what the modal shows after [fetchCSV]
    depends on that text and the file name only, not on what was shown
    before, so showing the same content again gives the same preview.  When
    the content arrives as a parsed value that is not a string, nothing is
    replaced: the state, with the preview and the modal, stays as it was. *)
Theorem fetchCSV_resolved_overwrites (csvText filename filename' : str)
    (before : response_data) (st : state) :
  fetchCSV_resolved (DataText csvText) filename
    (fetchCSV_resolved before filename' st)
  = fetchCSV_resolved (DataText csvText) filename st ∧
  fetchCSV_resolved DataValue filename st = st ∧
  showModal (fetchCSV_resolved (DataText csvText) filename st) = true ∧
  selectedFile (fetchCSV_resolved (DataText csvText) filename st) = filename.
Proof.
  split; [|done]. destruct before as [csvText'|]; [|done].
  unfold fetchCSV_resolved.
  destruct (parseCSV_columns csvText st) as (hs & ds & E & _).
  destruct (parseCSV_columns csvText' st) as (hs' & ds' & E' & _).
  unfold parseCSV. rewrite E, E'. reflexivity.
Qed.

(** X8: the column names are the pieces of the first line as they stand:
    joined by commas they give the first line of the trimmed text back. *)
Theorem parseCSV_header_round_trip (csvText : str) (st : state) :
  join comma (headerName <$> columnDefs
                                       (parseCSV csvText st))
  = default [] (head (split LF (trim csvText))).
Proof.
  destruct (parseCSV_columns csvText st) as (headers & dataRows & E & -> & _).
  rewrite <- list_fmap_compose, list_fmap_id.
  destruct (split LF (trim csvText)) as [|line lines]; [done|].
  simpl in *. injection E as <- _. apply split_join.
Qed.

End PreviewMore.

(** * Further properties of the form submitter *)

Section SubmitMore.
Context `{Dashboard.Env}.
Import Dashboard Spec.

(** X9: after an edit the field is without a value exactly when a file
    control was left without a file or the text of the control is empty:
    emptying a control makes the field required again. *)
Theorem handleChange_absent (e : change_event) (field : Field.t) (st : state) :
  absent (formData (handleChange e field st)) field ↔
  if decide (Field.type field = lit "file")
  then target_files e = [] else target_value e = [].
Proof.
  unfold absent, handleChange. simpl. rewrite lookup_insert_eq.
  destruct (decide (Field.type field = lit "file")).
  - by destruct (target_files e).
  - by destruct (target_value e).
Qed.

Lemma edits_cons (ef : change_event * Field.t)
    (evs : list (change_event * Field.t)) (st : state) :
  edits (ef :: evs) st = edits evs (handleChange ef.1 ef.2 st).
Proof. reflexivity. Qed.

(** The state after a sequence of edits. *)
Lemma edits_state (evs : list (change_event * Field.t)) (st : state)
    (n : str) :
  formData (edits evs st) !! n =
    match last (filter (λ ef, Field.name ef.2 = n) evs) with
    | Some ef => Some (stored ef.1 ef.2)
    | None => formData st !! n
    end ∧
  loading (edits evs st) = loading st ∧
  message (edits evs st) = message st.
Proof.
  revert st. induction evs as [|ef evs IH]; intros st; [done|].
  rewrite edits_cons. destruct (IH (handleChange ef.1 ef.2 st)) as (-> & -> & ->).
  split; [|done]. simpl.
  destruct (decide (Field.name ef.2 = n)) as [E|E].
  - rewrite filter_cons_True by done. rewrite last_cons.
    destruct (last _); [done|]. rewrite E. by rewrite lookup_insert_eq.
  - rewrite filter_cons_False by done.
    destruct (last _); [done|]. by rewrite lookup_insert_ne.
Qed.

(** X10: edits are last-write-wins per field name: after a sequence of
    edits the value under a name is the one stored by the last edit of a
    field of that name, and the value it had before when no edit touched
    the name; edits change neither [loading] nor the retained outcome. *)
Theorem edits_lookup (evs : list (change_event * Field.t)) (st : state)
    (n : str) :
  formData (edits evs st) !! n =
    match last (filter (λ ef, Field.name ef.2 = n) evs) with
    | Some ef => Some (stored ef.1 ef.2)
    | None => formData st !! n
    end ∧
  loading (edits evs st) = loading st ∧
  message (edits evs st) = message st.
Proof. apply edits_state. Qed.

Lemma forEach_field_ext (formData formData' : gmap str (value File))
    (fields : list Field.t) (form : FormData) :
  Forall (λ f, formData !! Field.name f = formData' !! Field.name f) fields →
  forEach_field formData fields form = forEach_field formData' fields form.
Proof.
  intros Hagree. revert form.
  induction Hagree as [|f fields Hf _ IH]; intros form; simpl; [done|].
  unfold js_get. rewrite Hf. by rewrite IH.
Qed.

(** X11: a submit attempt reads the FormValues at the names of the fields
    of the recipe only: values kept under other names, such as those
    entered under another recipe, change nothing in what it does. *)
Theorem handleSubmit_reads_declared_names (config : Recipe.t)
    (formData formData' : gmap str (value File)) (net : fetch_result) :
  Forall (λ f, formData !! Field.name f = formData' !! Field.name f)
    (Recipe.fields config) →
  handleSubmit config formData net = handleSubmit config formData' net.
Proof.
  intros Hagree. unfold handleSubmit.
  by rewrite (forEach_field_ext formData formData').
Qed.

(** A recipe with ordinary field names is refused at its first field
    without a value. *)
Lemma handleSubmit_refuses (config : Recipe.t)
    (formData : gmap str (value File)) (net : fetch_result) :
  plain_names (Recipe.fields config) →
  Exists (absent formData) (Recipe.fields config) →
  ∃ missing,
    missing ∈ Recipe.fields config ∧ absent formData missing ∧
    handleSubmit config formData net =
      [ setLoading true; setMessage None;
        setMessage (Some (Failure (Field.label missing ++ lit " is required")));
        setLoading false ].
Proof.
  intros Hplain Hex.
  destruct (Exists_first _ _ Hex) as (before & field & after & Hf & Hpres & Habs).
  exists field. split; [rewrite Hf; set_solver|]. split; [done|].
  unfold handleSubmit. rewrite Hf in *.
  by rewrite forEach_field_first_absent.
Qed.

Lemma filter_none {A} (P : A → Prop) `{!∀ x, Decision (P x)} (l : list A) :
  Forall (λ x, ¬ P x) l → filter P l = [].
Proof.
  induction 1 as [|x l Hx _ IH]; [done|]. by rewrite filter_cons_False.
Qed.

(** X12: a field of the recipe that no edit has touched since the form
    view was mounted blocks the submission, whatever was entered in the
    other fields: the attempt ends in a Failure naming a field of the
    recipe, without a network call.  This includes a dropdown left at the
    option it displays. *)
Theorem untouched_field_blocks_submit (config : Recipe.t)
    (evs : list (change_event * Field.t)) (field : Field.t)
    (net : fetch_result) :
  plain_names (Recipe.fields config) →
  field ∈ Recipe.fields config →
  Forall (λ ef, Field.name ef.2 ≠ Field.name field) evs →
  ∃ missing,
    missing ∈ Recipe.fields config ∧
    handleSubmit config (formData (edits evs initial)) net =
      [ setLoading true; setMessage None;
        setMessage (Some (Failure (Field.label missing ++ lit " is required")));
        setLoading false ].
Proof.
  intros Hplain Hin Hevs.
  destruct (handleSubmit_refuses config (formData (edits evs initial)) net
              Hplain) as (missing & Hm & _ & Htrace).
  - apply Exists_exists. exists field. split; [done|]. unfold absent.
    destruct (edits_state evs initial (Field.name field)) as [-> _].
    by rewrite filter_none.
  - by exists missing.
Qed.

Lemma filter_unique_name (evs : list (change_event * Field.t))
    (ef : change_event * Field.t) :
  NoDup ((λ x, Field.name x.2) <$> evs) →
  ef ∈ evs →
  filter (λ x, Field.name x.2 = Field.name ef.2) evs = [ef].
Proof.
  induction evs as [|x evs IH]; simpl; [by intros _ ?%elem_of_nil|].
  intros [Hx Hnd]%NoDup_cons [->|Hin]%elem_of_cons.
  - rewrite filter_cons_True by done. f_equal. apply filter_none.
    apply Forall_forall. intros y Hy E. apply Hx.
    rewrite <- E. apply list_elem_of_fmap. by exists y.
  - rewrite filter_cons_False; [by apply IH|].
    intros E. apply Hx. rewrite E. apply list_elem_of_fmap. by exists ef.
Qed.

(** X13: filling the fields of a recipe one by one and submitting sends
    what was entered: when the names of the fields are ordinary and pairwise
    distinct and each edit stores a non-empty text or a file, the attempt
    issues one POST whose entries are, in the order of the fields, the
    values of the edits, whatever the form held before. *)
Theorem edits_then_submit (config : Recipe.t)
    (evs : list (change_event * Field.t)) (st : state) (net : fetch_result) :
  plain_names (Recipe.fields config) →
  NoDup (Field.name <$> Recipe.fields config) →
  evs.*2 = Recipe.fields config →
  Forall (λ ef, truthy (stored ef.1 ef.2) = true) evs →
  ∃ after,
    handleSubmit config (formData (edits evs st)) net =
      [ setLoading true; setMessage None;
        fetch (API_BASE ++ Recipe.endpoint config) (lit "POST")
              (entry_of_edit <$> evs) ] ++ after ∧
    Forall (λ e, is_fetch e = false) after.
Proof.
  intros Hplain Hnd Hfields Htruthy.
  set (fd := formData (edits evs st)).
  assert (Hlook : ∀ ef, ef ∈ evs → fd !! Field.name ef.2 = Some (stored ef.1 ef.2)).
  { intros ef Hef. unfold fd.
    destruct (edits_state evs st (Field.name ef.2)) as [-> _].
    rewrite filter_unique_name; [done| |done].
    rewrite <- Hfields, <- list_fmap_compose in Hnd. exact Hnd. }
  assert (Hpres : Forall (λ f, ¬ absent fd f) (Recipe.fields config)).
  { rewrite <- Hfields. apply Forall_fmap, Forall_forall. intros ef Hef. simpl.
    unfold absent. rewrite (Hlook ef Hef).
    rewrite Forall_forall in Htruthy. specialize (Htruthy ef Hef).
    destruct (stored ef.1 ef.2) as [|[|]| |]; simpl in *;
      first [done | by intros []]. }
  assert (Hform : entry_of fd <$> Recipe.fields config = entry_of_edit <$> evs).
  { rewrite <- Hfields, <- list_fmap_compose. apply list_fmap_ext.
    intros i ef Hi%list_elem_of_lookup_2. simpl.
    unfold entry_of, entry_of_edit, entered. by rewrite (Hlook ef Hi). }
  unfold handleSubmit. rewrite forEach_field_all_present by done.
  rewrite Hform.
  destruct net as [|m|ok [m|result]]; simpl.
  - exists []. split; [done | constructor].
  - eexists. split; [done | repeat constructor].
  - eexists. split; [done | repeat constructor].
  - destruct (after_json ok result); eexists; (split; [done | repeat constructor]).
Qed.

(** X14: an attempt that settles always leaves an outcome and enables the
    control; the outcome is a Success only when the request was answered
    with a success status and a JSON body other than [null], and its text is
    then the [message] of that body. *)
Theorem settled_attempt_outcome (config : Recipe.t)
    (formData : gmap str (value File)) (net : fetch_result) (st : state) :
  net ≠ Pending →
  ∃ outcome,
    message (run st (handleSubmit config formData net)) = Some outcome ∧
    loading (run st (handleSubmit config formData net)) = false ∧
    (type outcome = lit "success" →
     ∃ result, net = Response true (Json result) ∧
               get result (lit "message") = Normal (text outcome)).
Proof.
  intros Hnet. unfold handleSubmit.
  assert (Herr : lit "error" ≠ lit "success") by (vm_compute; discriminate).
  destruct (forEach_field formData (Recipe.fields config) []) as [form|m];
    [|by eexists].
  destruct net as [|m|ok [m|result]]; [done|by eexists..|].
  unfold after_json. destruct ok; simpl.
  - destruct (get result (lit "message")) as [msg|m] eqn:E; [|by eexists].
    eexists. split; [done|]. split; [done|]. intros _. by exists result.
  - destruct (get result (lit "detail")) as [detail|m]; [|by eexists].
    destruct (ToString _); by eexists.
Qed.

(** X15: once the form has passed the check of its fields, a request that
    fails to complete leaves a Failure with the message of the rejection, a
    body that is the JSON [null] leaves a Failure with the message of the
    [TypeError] of the property read, and a request that never settles
    leaves no outcome and the control disabled. *)
Theorem failed_request_outcome (config : Recipe.t)
    (formData : gmap str (value File)) (form : FormData) (st : state) :
  forEach_field formData (Recipe.fields config) [] = Normal form →
  let after net := run st (handleSubmit config formData net) in
  (∀ m, message (after (Rejected m)) = Some (Failure m)) ∧
  message (after (Response true (Json JNull)))
    = Some (Failure (TypeError_null (lit "message"))) ∧
  message (after (Response false (Json JNull)))
    = Some (Failure (TypeError_null (lit "detail"))) ∧
  message (after Pending) = None ∧
  submit_disabled (after Pending) = true.
Proof.
  intros Hform after. subst after. unfold handleSubmit. rewrite Hform.
  by repeat split.
Qed.

(** X16: the presence check reads through the prototype of the FormValues
    object: for fields named like members of [Object.prototype] an empty
    form passes the check, and the inherited members are sent. *)
Theorem inherited_names_pass_check (config : Recipe.t) (net : fetch_result) :
  Forall (λ f, Field.name f ∈ Object_prototype_keys) (Recipe.fields config) →
  ∃ after,
    handleSubmit config ∅ net =
      [ setLoading true; setMessage None;
        fetch (API_BASE ++ Recipe.endpoint config) (lit "POST")
              ((λ f, (Field.name f, AValue (VInherited (Field.name f))))
                 <$> Recipe.fields config) ] ++ after.
Proof.
  intros Hnames.
  assert (Hloop : ∀ form,
            forEach_field ∅ (Recipe.fields config) form =
            Normal (form ++ ((λ f, (Field.name f,
                                    AValue (VInherited (Field.name f))))
                               <$> Recipe.fields config))).
  { induction Hnames as [|f fields Hf _ IH]; intros form; simpl.
    - by rewrite app_nil_r.
    - unfold js_get. rewrite lookup_empty, decide_True by done. simpl.
      rewrite decide_False.
      + rewrite IH, <- app_assoc. done.
      + intros E. rewrite E in Hf. revert Hf.
        apply (bool_decide_unpack _). vm_compute. exact I. }
  unfold handleSubmit. rewrite Hloop. simpl. by eexists.
Qed.

End SubmitMore.

(** * Further properties of the registry, the shell and the side bar *)

Section ShellMore.
Context `{Dashboard.Env}.
Import App Spec.

(** X17: the six recipes are well formed for the code that uses them:
    their keys are pairwise distinct; the endpoint of a recipe is
    ["/generate/"] followed by its key; the names of its fields, which are
    the React keys of the controls and the keys of the FormValues, are
    pairwise distinct; every field has a name and a label, and rendering
    its control does not throw (a field of type select has options). *)
Theorem registry_well_formed (key : str) (config : Recipe.t) :
  (key, config) ∈ Registry.datasetConfigs →
  NoDup Registry.datasetConfigs.*1 ∧
  Recipe.endpoint config = lit "/generate/" ++ key ∧
  NoDup (Field.name <$> Recipe.fields config) ∧
  Forall (λ f, Field.name f ≠ [] ∧ Field.label f ≠ [] ∧
               is_Some (Dashboard.render_control f))
    (Recipe.fields config).
Proof.
  intros Hin. split; [apply (bool_decide_unpack _); vm_compute; exact I|].
  revert Hin. unfold Registry.datasetConfigs.
  rewrite !elem_of_cons, elem_of_nil.
  intros [E|[E|[E|[E|[E|[E|[]]]]]]]; injection E as -> ->;
    apply (bool_decide_unpack _); vm_compute; exact I.
Qed.

Lemma step_one_page_mounted (st : state) (ev : event) :
  one_page_mounted st → one_page_mounted (step st ev).
Proof.
  intros Hst. destruct ev as [key| |e field]; simpl.
  - left. unfold render. by rewrite decide_True.
  - right. unfold render. rewrite decide_False by (vm_compute; discriminate).
    done.
  - destruct Hst as [(Hp & Hd & Hb)|(Hp & Hd & Hb)]; [left | right]; simpl;
      (split; [done|]); (split; [|done]).
    + destruct Hd as [d ->]. by eexists.
    + by rewrite Hd.
Qed.

Lemma steps_one_page_mounted (evs : list event) (st : state) :
  one_page_mounted st → one_page_mounted (steps st evs).
Proof.
  unfold steps. revert st.
  induction evs as [|ev evs IH]; intros st Hst; simpl; [done|].
  by apply IH, step_one_page_mounted.
Qed.

Lemma initial_one_page_mounted : one_page_mounted initial.
Proof. left. unfold initial, render. by rewrite decide_True. Qed.

(** X18: in every state the shell reaches, exactly one page component is
    mounted, the form view when the active page is ["generate"] and the
    dataset browser when it is ["datasets"]; no other page value occurs. *)
Theorem reachable_one_page_mounted (evs : list event) :
  one_page_mounted (steps initial evs).
Proof. apply steps_one_page_mounted, initial_one_page_mounted. Qed.

Lemma steps_selected (evs : list event) (st : state) :
  clicks_registry evs →
  selectedDataset st ∈ Registry.datasetConfigs.*1 →
  selectedDataset (steps st evs) ∈ Registry.datasetConfigs.*1.
Proof.
  intros Hevs. revert st.
  induction Hevs as [|ev evs Hev _ IH]; intros st Hst; [done|].
  apply IH. destruct ev as [key| |e field]; simpl; unfold render;
    try case_decide; done.
Qed.

(** X19: in every state the shell reaches by clicks on its buttons, the
    side bar highlights exactly one button: the button of the selected
    recipe while the form view is active, the button of the dataset browser
    otherwise. *)
Theorem sidebar_highlights_one (evs : list event) :
  clicks_registry evs →
  let st := steps initial evs in
  ∃ b, filter (λ b, Sidebar.highlighted b = true)
         (Sidebar.render (selectedDataset st) (activePage st)) = [b] ∧
       (activePage st = lit "generate" →
        ∃ config, (selectedDataset st, config) ∈ Registry.datasetConfigs ∧
                  Sidebar.caption b = Recipe.label config) ∧
       (activePage st = lit "datasets" →
        Sidebar.caption b = lit "View Datasets").
Proof.
  intros Hevs st.
  assert (Hsel : selectedDataset st ∈ Registry.datasetConfigs.*1).
  { apply steps_selected; [done|].
    apply (bool_decide_unpack _). vm_compute. exact I. }
  pose proof (steps_one_page_mounted evs initial initial_one_page_mounted)
    as Hpage.
  fold st in Hpage.
  revert Hsel. simpl. rewrite !elem_of_cons, elem_of_nil.
  destruct Hpage as [(-> & _)|(-> & _)];
    intros [->|[->|[->|[->|[->|[->|[]]]]]]];
    eexists; (split; [vm_compute; reflexivity|]); split; intros E;
    try (vm_compute in E; discriminate);
    try (eexists; split; [repeat constructor | vm_compute; reflexivity]);
    try (vm_compute; reflexivity).
Qed.

End ShellMore.

(** * Further properties of the dataset browser *)

Section BrowserMore.
Import Datasets Spec.

Lemma select_all_acc (keys : list str) (st : state) (acc : list request) :
  foldl (λ a key, let r := setDatasetType key a.1 in (r.1, a.2 ++ r.2))
        (st, acc) keys
  = ((select_all keys st).1, acc ++ (select_all keys st).2).
Proof.
  unfold select_all. revert st acc.
  induction keys as [|key keys IH]; intros st acc; cbn [foldl fst snd].
  - by rewrite app_nil_r.
  - rewrite (IH (setDatasetType key st).1 (acc ++ (setDatasetType key st).2)).
    rewrite (IH (setDatasetType key st).1 ([] ++ (setDatasetType key st).2)).
    cbn [fst snd]. by rewrite app_assoc.
Qed.

(** The requests and the final type of a sequence of selections. *)
Lemma select_all_trace (keys : list str) (st : state) :
  (select_all keys st).2
    = (λ key, GET (list_url key)) <$> changes (datasetType st) keys ∧
  datasetType (select_all keys st).1 = default (datasetType st) (last keys).
Proof.
  revert st. induction keys as [|key keys IH]; intros st; [done|].
  unfold select_all. cbn [foldl]. rewrite select_all_acc.
  cbn [fst snd]. destruct (IH (setDatasetType key st).1) as [-> ->].
  cbn [changes]. unfold setDatasetType at 1 3. cbn [fst snd datasetType].
  rewrite last_cons. destruct (decide (key = datasetType st)) as [->|Hne].
  - simpl. split; [done|]. by destruct (last keys).
  - simpl. split; [done|]. by destruct (last keys).
Qed.

(** X20: over a sequence of selections in the type selector, the list is
    fetched once for each selection that changes the selected type and
    never for a selection of the type already selected; the requests go
    out in the order of the selections, each for the type selected, and
    the last selection is the selected type at the end. *)
Theorem select_all_requests (keys : list str) (st : state) :
  (select_all keys st).2
    = (λ key, GET (list_url key)) <$> changes (datasetType st) keys ∧
  datasetType (select_all keys st).1 = default (datasetType st) (last keys).
Proof. apply select_all_trace. Qed.

(** Without a selection in between, the requests are those of
    [deleteDataset]. *)
Lemma delete_during_no_selection (filename : str) (st : state)
    (outcome : settled) :
  (delete_during_selections filename [] st outcome).2
  = deleteDataset filename st outcome.
Proof. by destruct outcome. Qed.

(** C9 as amended: once the DELETE of a delete action has resolved, exactly
    one request follows from the action, the GET of the file list of the
    type that was selected when the delete was clicked, which is the type in
    the URL of the DELETE; this holds whatever the displayed list was and
    whatever was selected in the type selector while the DELETE was
    pending, so the type re-fetched is the currently selected one only when
    the selection did not change. *)
Theorem deleteDataset_refetches_type_of_click (filename : str)
    (keys : list str) (st : state) (displayed : list str) :
  let run := delete_during_selections filename keys st Resolved in
  run.2
    = [ DELETE (lit "http://localhost:8000/datasets/" ++ datasetType st
                ++ lit "/" ++ filename) ]
      ++ ((λ key, GET (lit "http://localhost:8000/datasets?dataset_type="
                       ++ key)) <$> changes (datasetType st) keys)
      ++ [ GET (lit "http://localhost:8000/datasets?dataset_type="
                ++ datasetType st) ] ∧
  deleteDataset_resumed st Resolved
    = [ GET (lit "http://localhost:8000/datasets?dataset_type="
             ++ datasetType st) ] ∧
  datasetType run.1 = default (datasetType st) (last keys) ∧
  (delete_during_selections filename keys
     {| datasetType := datasetType st; datasets := displayed;
        rowData := rowData st; columnDefs := columnDefs st;
        showModal := showModal st; selectedFile := selectedFile st |}
     Resolved).2 = run.2.
Proof.
  intros run. subst run. unfold delete_during_selections. cbn [fst snd].
  destruct (select_all_trace keys st) as [-> ->].
  match goal with |- context [select_all keys ?st'] =>
    destruct (select_all_trace keys st') as [-> _] end.
  repeat split.
Qed.

(** X21: responses to list requests are applied in their order of arrival
    without a check of the type they were requested for: when the response
    to an earlier selection arrives after the response to a later one, the
    list of the earlier type is displayed under the later type. *)
Theorem stale_list_response (earlier later : str)
    (earlier_list later_list : list str) (st : state) :
  earlier ≠ datasetType st →
  later ≠ earlier →
  let s1 := setDatasetType earlier st in
  let s2 := setDatasetType later s1.1 in
  s1.2 ++ s2.2 = [GET (list_url earlier); GET (list_url later)] ∧
  let final := fetchDatasets_resolved earlier_list
                 (fetchDatasets_resolved later_list s2.1) in
  datasetType final = later ∧ datasets final = earlier_list.
Proof.
  intros Hne1 Hne2. unfold setDatasetType. simpl.
  by rewrite !decide_False.
Qed.

End BrowserMore.

(** * The further statements at concrete inputs *)

Section ExamplesMore.
Import Dashboard Spec.
#[local] Existing Instance sample_env.

Lemma formatRow_positional_witness :
  NoDup [lit "a"; lit "b"] ∧
  Datasets.formatRow [lit "a"; lit "b"] [lit "1"; lit "2"] !! lit "b"
    = Some (lit "2").
Proof.
  assert (Hnd : NoDup [lit "a"; lit "b"])
    by (apply (bool_decide_unpack _); vm_compute; exact I).
  split; [exact Hnd|].
  refine (formatRow_positional [lit "a"; lit "b"] [lit "1"; lit "2"] 1
            (lit "b") Hnd _ _); [reflexivity | vm_compute; discriminate].
Defined.

Lemma parseCSV_ignores_surrounding_blank_witness :
  blank [LF; 32] ∧ blank [13; LF] ∧
  Datasets.parseCSV ([LF; 32] ++ lit "a,b" ++ [13; LF]) Datasets.initial
    = Datasets.parseCSV (lit "a,b") Datasets.initial.
Proof.
  assert (Hws : blank [LF; 32]) by (repeat constructor).
  assert (Hws' : blank [13; LF]) by (repeat constructor).
  split; [exact Hws|]. split; [exact Hws'|].
  exact (parseCSV_ignores_surrounding_blank [LF; 32] (lit "a,b") [13; LF]
           Datasets.initial Hws Hws').
Defined.

Lemma handleSubmit_reads_declared_names_witness :
  let stale : gmap str (value str) :=
    <[lit "topic" := VString (lit "birds")]> nl_sql_form in
  stale ≠ nl_sql_form ∧
  handleSubmit Registry.nl_sql nl_sql_form Pending
    = handleSubmit Registry.nl_sql stale Pending.
Proof.
  intros stale. split.
  - intros E.
    apply (f_equal (λ m : gmap str (value str), m !! lit "topic")) in E.
    vm_compute in E. discriminate.
  - refine (handleSubmit_reads_declared_names (H := sample_env)
              Registry.nl_sql nl_sql_form stale Pending _).
    repeat constructor.
Defined.

Lemma untouched_field_blocks_submit_witness :
  let typed t := {| target_value := lit t; target_files := [] |} in
  let evs :=
    [ ({| target_value := []; target_files := [lit "notes.txt"] |},
       Registry.input "context_file" "Context File (.txt / .pdf)" "file");
      (typed "gpt"%string, Registry.input "model" "Model" "text");
      (typed "5"%string, Registry.input "num_pairs" "Number of QA Pairs" "number");
      (typed "out"%string, Registry.input "output_name" "Output Name" "text") ] in
  ∃ missing,
    missing ∈ Recipe.fields Registry.rag_qa ∧
    handleSubmit Registry.rag_qa (formData (edits evs initial)) Pending =
      [ setLoading true; setMessage None;
        setMessage (Some (Failure (Field.label missing ++ lit " is required")));
        setLoading false ].
Proof.
  intros typed evs.
  refine (untouched_field_blocks_submit (H := sample_env) Registry.rag_qa evs
            (Registry.select "difficulty" "Difficulty"
               ["easy"; "medium"; "hard"]%string) Pending _ _ _).
  - apply (bool_decide_unpack _). vm_compute. exact I.
  - apply (list_elem_of_lookup_2 _ 2). reflexivity.
  - repeat constructor; vm_compute; discriminate.
Defined.

Lemma edits_then_submit_witness :
  let typed t := {| target_value := lit t; target_files := [] |} in
  let evs :=
    [ ({| target_value := []; target_files := [lit "schema.json"] |},
       Registry.input "schema_file" "Schema File (.json)" "file");
      (typed "gpt"%string, Registry.input "model" "Model" "text");
      (typed "5"%string, Registry.input "num_samples" "Number of Samples" "number");
      (typed "out"%string, Registry.input "output_name" "Output Name" "text") ] in
  ∃ after,
    handleSubmit Registry.nl_sql (formData (edits evs initial)) Pending =
      [ setLoading true; setMessage None;
        fetch (API_BASE ++ Recipe.endpoint Registry.nl_sql) (lit "POST")
              (entry_of_edit <$> evs) ] ++ after ∧
    Forall (λ e, is_fetch e = false) after.
Proof.
  intros typed evs.
  refine (edits_then_submit (H := sample_env) Registry.nl_sql evs initial
            Pending _ _ _ _).
  - apply (bool_decide_unpack _). vm_compute. exact I.
  - apply (bool_decide_unpack _). vm_compute. exact I.
  - reflexivity.
  - repeat constructor.
Defined.

Lemma settled_attempt_outcome_witness :
  let net := Response true
               (Json (JObject [(lit "message", JString (lit "Saved"))])) in
  ∃ outcome,
    message (run initial (handleSubmit Registry.nl_sql nl_sql_form net))
      = Some outcome ∧
    loading (run initial (handleSubmit Registry.nl_sql nl_sql_form net))
      = false ∧
    (type outcome = lit "success" →
     ∃ result, net = Response true (Json result) ∧
               get result (lit "message") = Normal (text outcome)).
Proof.
  intros net.
  refine (settled_attempt_outcome (H := sample_env) Registry.nl_sql
            nl_sql_form net initial _).
  discriminate.
Defined.

Lemma failed_request_outcome_witness :
  message (run initial
             (handleSubmit Registry.nl_sql nl_sql_form
                (Rejected (lit "Failed to fetch"))))
    = Some (Failure (lit "Failed to fetch")).
Proof.
  assert (Hform : forEach_field nl_sql_form (Recipe.fields Registry.nl_sql) []
                  = Normal (entry_of (H := sample_env) nl_sql_form
                              <$> Recipe.fields Registry.nl_sql))
    by (vm_compute; reflexivity).
  exact (proj1 (failed_request_outcome (H := sample_env) Registry.nl_sql
                  nl_sql_form _ initial Hform) (lit "Failed to fetch")).
Defined.

Lemma inherited_names_pass_check_witness :
  let config :=
    {| Recipe.label := lit "Probe"; Recipe.endpoint := lit "/generate/probe";
       Recipe.fields := [Registry.input "constructor" "Constructor" "text"] |} in
  ∃ after,
    handleSubmit config ∅ Pending =
      [ setLoading true; setMessage None;
        fetch (API_BASE ++ lit "/generate/probe") (lit "POST")
              [(lit "constructor", AValue (VInherited (lit "constructor")))] ]
      ++ after.
Proof.
  intros config.
  refine (inherited_names_pass_check (H := sample_env) config Pending _).
  repeat constructor.
Defined.

Lemma registry_well_formed_witness :
  (lit "multilingual", Registry.multilingual) ∈ Registry.datasetConfigs ∧
  Recipe.endpoint Registry.multilingual = lit "/generate/multilingual" ∧
  NoDup (Field.name <$> Recipe.fields Registry.multilingual).
Proof.
  assert (Hin : (lit "multilingual", Registry.multilingual)
                ∈ Registry.datasetConfigs)
    by (apply (list_elem_of_lookup_2 _ 5); reflexivity).
  destruct (registry_well_formed (lit "multilingual") Registry.multilingual Hin)
    as (_ & Hend & Hnd & _).
  split; [exact Hin|]. split; [exact Hend | exact Hnd].
Defined.

Lemma sidebar_highlights_one_witness :
  let st := App.steps App.initial
              [App.ClickRecipe (lit "rag_qa"); App.ClickViewDatasets] in
  ∃ b, filter (λ b, Sidebar.highlighted b = true)
         (Sidebar.render (App.selectedDataset st) (App.activePage st)) = [b] ∧
       (App.activePage st = lit "generate" →
        ∃ config, (App.selectedDataset st, config) ∈ Registry.datasetConfigs ∧
                  Sidebar.caption b = Recipe.label config) ∧
       (App.activePage st = lit "datasets" →
        Sidebar.caption b = lit "View Datasets").
Proof.
  refine (sidebar_highlights_one (H := sample_env)
            [App.ClickRecipe (lit "rag_qa"); App.ClickViewDatasets] _).
  repeat constructor.
Defined.

Lemma stale_list_response_witness :
  let s1 := Datasets.setDatasetType (lit "nl_sql") Datasets.initial in
  let s2 := Datasets.setDatasetType (lit "rag_qa") s1.1 in
  let final := Datasets.fetchDatasets_resolved [lit "queries.csv"]
                 (Datasets.fetchDatasets_resolved [lit "answers.csv"] s2.1) in
  Datasets.datasetType final = lit "rag_qa" ∧
  Datasets.datasets final = [lit "queries.csv"].
Proof.
  refine (proj2 (stale_list_response (lit "nl_sql") (lit "rag_qa")
                   [lit "queries.csv"] [lit "answers.csv"] Datasets.initial
                   _ _)); vm_compute; discriminate.
Defined.

(** The sample environment on a few values: zeros are falsy however they
    are written, and booleans, numbers and arrays convert to strings as
    JavaScript writes them. *)
Lemma sample_env_conversions :
  number_truthy <$> [ BodyNumber (lit "0"); BodyNumber (lit "1.5");
                      Coerced (VString (lit "0.0"));
                      Coerced (VString (lit "-0"));
                      Coerced (VString (lit " 7 "));
                      Coerced (VString (lit "seven"));
                      Coerced (VFile (lit "notes.txt")) ]
    = [false; true; false; false; true; false; false] ∧
  number_text <$> [ Coerced (VString (lit "007")); Coerced (VString (lit "-12.50"));
                    Coerced (VString []); Coerced VUndefined ]
    = [lit "7"; lit "-12.5"; lit "0"; lit "NaN"] ∧
  sample_ToString
    (JArray [ JNumber (BodyNumber (lit "1")); JNull;
              JArray [JBool true; JString (lit "x")]; JObject [] ])
    = Normal (lit "1,,true,x,[object Object]").
Proof.
  unfold number_truthy, number_text. rewrite coerced_text_unseal.
  repeat split; vm_compute; reflexivity.
Qed.

(** C9 as stated fails when the selection changes while the DELETE is
    pending: the delete was clicked under [sft], [nl_sql] is selected when
    the DELETE resolves, and the list then fetched is the one of [sft]. *)
Lemma delete_refetches_earlier_type :
  let run := delete_during_selections (lit "a.csv") [lit "nl_sql"]
               Datasets.initial Datasets.Resolved in
  Datasets.datasetType run.1 = lit "nl_sql" ∧
  run.2 = [ Datasets.DELETE (lit "http://localhost:8000/datasets/sft/a.csv");
            Datasets.GET
              (lit "http://localhost:8000/datasets?dataset_type=nl_sql");
            Datasets.GET
              (lit "http://localhost:8000/datasets?dataset_type=sft") ] ∧
  Datasets.deleteDataset_resumed Datasets.initial Datasets.Resolved
    ≠ Datasets.fetchDatasets run.1.
Proof.
  intros run. split; [vm_compute; reflexivity|].
  split; [vm_compute; reflexivity|].
  vm_compute. discriminate.
Qed.

Lemma deleteDataset_refetches_type_of_click_witness :
  (delete_during_selections (lit "a.csv")
     [lit "nl_sql"; lit "nl_sql"; lit "rag_qa"]
     Datasets.initial Datasets.Resolved).2
  = [ Datasets.DELETE (lit "http://localhost:8000/datasets/sft/a.csv");
      Datasets.GET (lit "http://localhost:8000/datasets?dataset_type=nl_sql");
      Datasets.GET (lit "http://localhost:8000/datasets?dataset_type=rag_qa");
      Datasets.GET (lit "http://localhost:8000/datasets?dataset_type=sft") ].
Proof.
  exact (proj1 (deleteDataset_refetches_type_of_click (lit "a.csv")
                  [lit "nl_sql"; lit "nl_sql"; lit "rag_qa"]
                  Datasets.initial [lit "a.csv"])).
Defined.

End ExamplesMore.
